(** * genmc: a shallow embedding of [genmc.py]

    [genmc.py] is an IDA Pro script and plugin that asks the Hex-Rays
    decompiler for the microcode of an address range and shows it in a
    text viewer.  The script is Python 2 (it uses [xrange]).

    The host (IDA, Hex-Rays, the operating system) is closed; it is
    modelled by a record of answers ([host]) that the script's calls
    consult, and every call into the IDA modules is written to a trace,
    so that what the script did, and in which order, can be stated. *)

From Stdlib Require Import ZArith NArith List Ascii Lia Bool.
From stdpp Require Import gmap strings.
Import ListNotations.

Local Open Scope Z_scope.

(* ------------------------------------------------------------------ *)
(** ** Python values the script relies on *)

(** The exceptions that can arise in the script. *)
Inductive exn : Type :=
| OSError (errno : Z)
| IOError (errno : Z)
| ShutilError
| AttributeError (attr : string)
| ValueError
| IndexError.

(** Outcome of evaluating a Python expression or a function body. *)
Inductive result (A : Type) : Type :=
| Return (a : A)
| Raise (e : exn).
Arguments Return {A} a.
Arguments Raise {A} e.

Definition LF : string := String (ascii_of_nat 10) EmptyString.
Definition DQ : string := String (ascii_of_nat 34) EmptyString.
Definition slash : ascii := ascii_of_nat 47.

(** [needle in hay] on [str]. *)
Fixpoint py_contains (needle hay : string) : bool :=
  String.prefix needle hay ||
  match hay with
  | EmptyString => false
  | String _ rest => py_contains needle rest
  end.

(** [s.split(sep)] for a one-character separator: never the empty list. *)
Fixpoint py_split (sep : ascii) (s : string) : list string :=
  match s with
  | EmptyString => [EmptyString]
  | String c rest =>
      if Ascii.eqb c sep then EmptyString :: py_split sep rest
      else match py_split sep rest with
           | w :: ws => String c w :: ws
           | [] => [String c EmptyString]
           end
  end.

Definition is_space (c : ascii) : bool :=
  let n := nat_of_ascii c in
  (Nat.eqb n 32 || (Nat.leb 9 n && Nat.leb n 13))%bool.

Definition is_digit (c : ascii) : bool :=
  let n := nat_of_ascii c in (Nat.leb 48 n && Nat.leb n 57)%bool.

Fixpoint lstrip (s : string) : string :=
  match s with
  | String c rest => if is_space c then lstrip rest else s
  | EmptyString => EmptyString
  end.

Fixpoint rstrip (s : string) : string :=
  match s with
  | EmptyString => EmptyString
  | String c rest =>
      match rstrip rest with
      | EmptyString => if is_space c then EmptyString else String c EmptyString
      | rest' => String c rest'
      end
  end.

Fixpoint digits_value (s : string) (acc : Z) : option Z :=
  match s with
  | EmptyString => Some acc
  | String c rest =>
      if is_digit c
      then digits_value rest (10 * acc + Z.of_nat (nat_of_ascii c - 48))
      else None
  end.

Definition decimal (s : string) : option Z :=
  match s with
  | EmptyString => None
  | _ => digits_value s 0
  end.

(** [int(s)] in base ten: surrounding white space is dropped, one sign is
    allowed, at least one digit is required; anything else is a
    [ValueError]. *)
Definition py_int (s : string) : result Z :=
  let t := rstrip (lstrip s) in
  let r :=
    match t with
    | String c rest =>
        if Ascii.eqb c "-"%char then option_map Z.opp (decimal rest)
        else if Ascii.eqb c "+"%char then decimal rest
        else decimal t
    | EmptyString => None
    end in
  match r with
  | Some z => Return z
  | None => Raise ValueError
  end.

(** [l[i]] on a list: a negative index counts from the end, an index out
    of range is an [IndexError]. *)
Definition py_getitem {A : Type} (l : list A) (i : Z) : result A :=
  let len := Z.of_nat (length l) in
  let j := if i <? 0 then i + len else i in
  if (j <? 0) || (len <=? j) then Raise IndexError
  else match nth_error l (Z.to_nat j) with
       | Some x => Return x
       | None => Raise IndexError
       end.

(** Lower-case hexadecimal digits, as printed by the [%x] conversion. *)
Definition hex_digit (d : N) : ascii :=
  nth (N.to_nat d)
      ["0"; "1"; "2"; "3"; "4"; "5"; "6"; "7";
       "8"; "9"; "a"; "b"; "c"; "d"; "e"; "f"]%char "0"%char.

Fixpoint hex_loop (fuel : nat) (n : N) (acc : string) : string :=
  match fuel with
  | O => acc
  | S fuel' =>
      if (n =? 0)%N then acc
      else hex_loop fuel' (n / 16)%N (String (hex_digit (n mod 16)%N) acc)
  end.

Definition py_hex (n : N) : string :=
  if (n =? 0)%N then "0" else hex_loop (N.to_nat (N.size n)) n EmptyString.

Fixpoint zeros (k : nat) : string :=
  match k with
  | O => EmptyString
  | S k' => String "0"%char (zeros k')
  end.

(** ["%0<width>x" % n] for a non-negative [n]: zero padded on the left up
    to [width] characters, never truncated. *)
Definition py_fmt_0x (width : nat) (n : N) : string :=
  let d := py_hex n in
  zeros (width - String.length d) +:+ d.

(** The value a string of hexadecimal digits denotes (used to state that
    [py_hex] loses nothing). *)
Definition hex_digit_value (c : ascii) : N :=
  let n := N.of_nat (nat_of_ascii c) in
  if is_digit c then (n - 48)%N else (n - 87)%N.

Fixpoint hex_value (s : string) (acc : N) : N :=
  match s with
  | EmptyString => acc
  | String c rest => hex_value rest (16 * acc + hex_digit_value c)%N
  end.

(* ------------------------------------------------------------------ *)
(** ** Paths ([os.path], POSIX flavour) *)

Fixpoint has_slash (s : string) : bool :=
  match s with
  | EmptyString => false
  | String c rest => Ascii.eqb c slash || has_slash rest
  end.

Fixpoint all_slashes (s : string) : bool :=
  match s with
  | EmptyString => true
  | String c rest => Ascii.eqb c slash && all_slashes rest
  end.

Fixpoint ends_with_slash (s : string) : bool :=
  match s with
  | EmptyString => false
  | String c EmptyString => Ascii.eqb c slash
  | String _ rest => ends_with_slash rest
  end.

Fixpoint rstrip_slashes (s : string) : string :=
  match s with
  | EmptyString => EmptyString
  | String c rest =>
      match rstrip_slashes rest with
      | EmptyString =>
          if Ascii.eqb c slash then EmptyString else String c EmptyString
      | rest' => String c rest'
      end
  end.

(** [p[:p.rfind('/') + 1]]: the longest prefix that ends in a slash. *)
Fixpoint path_head (p : string) : string :=
  match p with
  | EmptyString => EmptyString
  | String c rest => if has_slash p then String c (path_head rest) else EmptyString
  end.

(** [p[p.rfind('/') + 1:]]. *)
Fixpoint os_path_basename (p : string) : string :=
  match p with
  | EmptyString => EmptyString
  | String c rest => if has_slash p then os_path_basename rest else p
  end.

Definition os_path_dirname (p : string) : string :=
  let head := path_head p in
  if all_slashes head then head else rstrip_slashes head.

(** [os.path.join(a, b)] with two arguments. *)
Definition os_path_join (a b : string) : string :=
  match b with
  | String c _ =>
      if Ascii.eqb c slash then b
      else match a with
           | EmptyString => b
           | _ => if ends_with_slash a then a +:+ b else a +:+ "/" +:+ b
           end
  | EmptyString =>
      match a with
      | EmptyString => EmptyString
      | _ => if ends_with_slash a then a else a +:+ "/"
      end
  end.

(* ------------------------------------------------------------------ *)
(** ** The host *)

(** [ida_kernwin.ASKBTN_*]: the answers of a yes/no box. *)
Inductive askbtn : Type := ASKBTN_CANCEL | ASKBTN_NO | ASKBTN_YES.

(** [ida_idaapi.PLUGIN_*]: what a plugin's [init] may answer. *)
Inductive plugin_rc : Type := PLUGIN_SKIP | PLUGIN_OK | PLUGIN_KEEP.

(** [ida_hexrays.MMAT_*]: the maturity levels of microcode. *)
Inductive mba_maturity_t : Type :=
| MMAT_ZERO | MMAT_GENERATED | MMAT_PREOPTIMIZED | MMAT_LOCOPT | MMAT_CALLS
| MMAT_GLBOPT1 | MMAT_GLBOPT2 | MMAT_GLBOPT3 | MMAT_LVARS.

(** [ida_funcs.func_t], as far as the script reads it. *)
Record func_t : Type := { start_ea : N; end_ea : N }.

(** [ida_hexrays.hexrays_failure_t], as far as the script reads it. *)
Record hexrays_failure_t : Type := { errea : N; str : string }.

(** The microcode object returned by the generator is opaque; all the
    script does with it is set its flags and ask for its text, which the
    host delivers as a sequence of [(indent, line)] callbacks that may
    depend on the flags. *)
Record mba_t : Type := { mba_dump : Z -> list (Z * string) }.

(** The form built by [MaturityForm.__init__]. *)
Record form_t : Type := {
  form_title : string;
  form_dropdown_label : string;
  form_dropdown_items : list string;
  form_chkgroup_label : string;
  form_checkboxes : list (string * string)   (* control name, label *)
}.

(** Where an I/O fault of the operating system strikes [shutil.copy],
    which opens the source, opens the target for writing, copies the
    contents and then copies the permission bits. *)
Inductive copy_stage : Type :=
| on_open                    (* a file cannot be opened: nothing is written *)
| on_write (written : nat)   (* the target is open; [written] characters reach it *)
| on_copymode.               (* the contents are copied, the permission bits are not *)

(** Every answer the host gives to the script in one run. *)
Record host : Type := {
  (* the Python module *)
  module_name : string;                      (* __name__ *)
  module_file : string;                      (* __file__ *)
  (* constants of the host's modules *)
  errno_EEXIST : Z;
  hr_MBA_SHORT : Z;
  hr_DECOMP_WARNINGS : Z;
  (* installer *)
  user_idadir : string;                      (* ida_diskio.get_user_idadir() *)
  ask_yn_answer : askbtn;                    (* kw.ask_yn(...) *)
  mkdir_fault : option (exn * nat);          (* an I/O fault during os.makedirs,
                                                after so many directories were made *)
  copy_fault : option (exn * copy_stage);    (* an I/O fault during shutil.copy,
                                                and where it strikes *)
  (* versions *)
  kernel_version : string;                   (* kw.get_kernel_version() *)
  hexrays_present : bool;                    (* hr.init_hexrays_plugin() *)
  (* database and user interface *)
  range_selection : bool * N * N;            (* kw.read_range_selection(None) *)
  screen_ea : N;                             (* kw.get_screen_ea() *)
  get_func : N -> option func_t;             (* ida_funcs.get_func(ea) *)
  inf_is_64bit : bool;                       (* ida_ida.inf_is_64bit() *)
  get_flags : N -> N;                        (* ida_bytes.get_flags(ea) *)
  is_code : N -> bool;                       (* ida_bytes.is_code(F) *)
  form_ok : Z;                               (* form.Execute() *)
  form_mat_lvl_value : Z;                    (* form.mat_lvl.value *)
  form_flags_short_checked : bool;           (* form.flags_short.checked *)
  gen_microcode :                            (* hr.gen_microcode(...) *)
    N -> N -> Z -> option mba_maturity_t -> option mba_t * hexrays_failure_t;
  viewer_create_ok : bool                    (* simplecustviewer_t.Create *)
}.

(** A call into one of the IDA modules. *)
Inductive event : Type :=
| kw_msg (text : string)
| kw_warning (text : string)
| kw_ask_yn (deflt : askbtn) (prompt : string)
| kw_get_kernel_version
| hr_init_hexrays_plugin
| ida_diskio_get_user_idadir
| kw_read_range_selection
| kw_get_screen_ea
| ida_funcs_get_func (ea : N)
| ida_ida_inf_is_64bit
| ida_bytes_get_flags (ea : N)
| ida_bytes_is_code (F : N)
| Form_Compile (f : form_t)
| Form_Execute
| Form_Free
| hr_gen_microcode (sea eea : N) (decomp_flags : Z) (mmat : option mba_maturity_t)
| mba_set_mba_flags (flags : Z)
| mba_print
| viewer_Create (title : string)
| viewer_AddLine (line : string)
| viewer_Show.

(** The part of the world the script changes: the file system (the
    directories that exist and the files with their contents) and the
    trace of calls into the host. *)
Record state : Type := {
  fs_dirs : gset string;
  fs_files : gmap string string;
  trace : list event
}.

Definition log (e : event) (s : state) : state :=
  {| fs_dirs := fs_dirs s; fs_files := fs_files s; trace := trace s ++ [e] |}.

(* ------------------------------------------------------------------ *)
(** ** Computations: state passing with exceptions *)

Definition M (A : Type) : Type := state -> result A * state.

Definition ret {A : Type} (a : A) : M A := fun s => (Return a, s).

Definition raise {A : Type} (e : exn) : M A := fun s => (Raise e, s).

Definition bind {A B : Type} (m : M A) (k : A -> M B) : M B :=
  fun s =>
    match m s with
    | (Return a, s') => k a s'
    | (Raise e, s') => (Raise e, s')
    end.

(** [try: m  except <handler>]: the handler sees the exception and the
    state the body left behind; it re-raises what it does not handle. *)
Definition try_except {A : Type} (m : M A) (handler : exn -> M A) : M A :=
  fun s =>
    match m s with
    | (Return a, s') => (Return a, s')
    | (Raise e, s') => handler e s'
    end.

(** A pure Python expression that may raise. *)
Definition lift {A : Type} (r : result A) : M A := fun s => (r, s).

(** A call into the host that is written to the trace. *)
Definition call {A : Type} (e : event) (answer : A) : M A :=
  fun s => (Return answer, log e s).

Declare Scope py_scope.
Delimit Scope py_scope with py.
Notation "x <- m ;; k" := (bind m (fun x => k))
  (at level 100, m at next level, right associativity) : py_scope.
Notation "m ;; k" := (bind m (fun _ => k))
  (at level 100, right associativity) : py_scope.
Local Open Scope py_scope.

(* ------------------------------------------------------------------ *)
(** ** [printer_t] *)

Module printer_t.

(** The object's only field, [self.mc]. *)
Record t : Type := { mc : list string }.

(** [__init__] *)
Definition init : t := {| mc := [] |}.

Definition get_mc (self : t) : list string := mc self.

(** [_print(self, indent, line)]: the returned pair is the method's
    result and the object after the call. *)
Definition _print (self : t) (indent : Z) (line : string) : Z * t :=
  (1, {| mc := mc self ++ [line] |}).

(** The host driving the printer: one [_print] per line, in order; the
    results of the callbacks are collected next to the final object. *)
Fixpoint feed (self : t) (calls : list (Z * string)) : list Z * t :=
  match calls with
  | [] => ([], self)
  | (indent, line) :: rest =>
      let '(r, self') := _print self indent line in
      let '(rs, self'') := feed self' rest in
      (r :: rs, self'')
  end.

End printer_t.

(* ------------------------------------------------------------------ *)
(** ** The file system calls of the installer *)

Definition ENOENT : Z := 2.

(** [os.path.isfile(p)] *)
Definition os_path_isfile (p : string) : M bool :=
  fun s => (Return (bool_decide (is_Some (fs_files s !! p))), s).

(** [os.path.exists(p)] *)
Definition os_path_exists (p : string) : M bool :=
  fun s =>
    (Return (bool_decide (p ∈ fs_dirs s) || bool_decide (is_Some (fs_files s !! p))), s).

(** The directories [os.makedirs(p)] has to create: [p] and those of its
    ancestors that are missing ([fuel] bounds the number of ancestors by
    the length of [p]). *)
Fixpoint missing_dirs (fuel : nat) (dirs : gset string) (p : string) : list string :=
  match fuel with
  | O => []
  | S fuel' =>
      if bool_decide (p ∈ dirs) then []
      else match os_path_dirname p with
           | EmptyString => [p]
           | parent =>
               if String.eqb parent p then [p]
               else missing_dirs fuel' dirs parent ++ [p]
           end
  end.

(** [os.makedirs(p)]: fails with [EEXIST] when [p] is already there;
    otherwise makes the missing ancestors of [p], outermost first, and
    then [p].  A fault [(e, k)] of the operating system strikes after [k]
    of these directories were made, and they stay.  This is the function
    the installer means to call. *)
Definition os_makedirs (fault : option (exn * nat)) (eexist : Z) (p : string) : M unit :=
  fun s =>
    if bool_decide (p ∈ fs_dirs s) || bool_decide (is_Some (fs_files s !! p))
    then (Raise (OSError eexist), s)
    else
      let missing := missing_dirs (S (String.length p)) (fs_dirs s) p in
      let made (l : list string) :=
        {| fs_dirs := list_to_set l ∪ fs_dirs s;
           fs_files := fs_files s;
           trace := trace s |} in
      match fault with
      | Some (e, k) => (Raise e, made (firstn k missing))
      | None => (Return tt, made missing)
      end.

(** [os.path.makedirs(p)], as the installer writes it.  The module
    [os.path] has no attribute [makedirs] (the function is [os.makedirs]),
    so evaluating the attribute reference raises [AttributeError] and no
    call takes place. *)
Definition os_path_makedirs (p : string) : M unit :=
  raise (AttributeError "makedirs").

Definition EISDIR : Z := 21.

(** [shutil.copy(src, dst)]: [copyfile] followed by [copymode].  A
    directory as [dst] stands for the file of the source's name in it.
    [copyfile] refuses to copy a file onto itself, opens the source (which
    must exist), opens the target for writing (its directory must exist,
    and it must not be a directory), and copies the contents; [copymode]
    then copies the permission bits.  [fault] is an I/O error the
    operating system may report (no permission, disk full, ...) and the
    stage at which it strikes: once the target is open, what was written
    before the fault stays in it. *)
Definition shutil_copy (fault : option (exn * copy_stage)) (src dst : string) : M unit :=
  fun s =>
    let dst' :=
      if bool_decide (dst ∈ fs_dirs s)
      then os_path_join dst (os_path_basename src) else dst in
    let written (text : string) :=
      {| fs_dirs := fs_dirs s;
         fs_files := <[dst' := text]> (fs_files s);
         trace := trace s |} in
    match fs_files s !! src with
    | None => (Raise (IOError ENOENT), s)
    | Some data =>
        if String.eqb src dst' then (Raise ShutilError, s)
        else match fault with
             | Some (e, on_open) => (Raise e, s)
             | _ =>
                 if bool_decide (dst' ∈ fs_dirs s) then (Raise (IOError EISDIR), s)
                 else if negb (bool_decide (os_path_dirname dst' ∈ fs_dirs s))
                 then (Raise (IOError ENOENT), s)
                 else match fault with
                      | Some (e, on_write n) =>
                          (Raise e, written (String.substring 0 n data))
                      | Some (e, on_copymode) => (Raise e, written data)
                      | _ => (Return tt, written data)
                      end
             end
    end.

(* ------------------------------------------------------------------ *)
(** ** The script *)

(** [genmc.wanted_name] *)
Definition genmc_wanted_name : string := "genmc".

Definition askbtn_eqb (a b : askbtn) : bool :=
  match a, b with
  | ASKBTN_CANCEL, ASKBTN_CANCEL | ASKBTN_NO, ASKBTN_NO | ASKBTN_YES, ASKBTN_YES => true
  | _, _ => false
  end.

Section Script.

Variable h : host.

Definition is_plugin : bool := py_contains "__plugins__" (module_name h).

Definition get_target_dir : M string :=
  idadir <- call ida_diskio_get_user_idadir (user_idadir h) ;;
  let base := os_path_join idadir "plugins" in
  ret (os_path_join base (genmc_wanted_name +:+ ".py")).

Definition is_installed : M bool :=
  p <- get_target_dir ;;
  os_path_isfile p.

(** [SELF = __file__] *)
Definition SELF : string := module_file h.

(** [install_plugin], with the directory-creating call as a parameter:
    the script passes [os.path.makedirs]. *)
Definition install_plugin_with (makedirs : string -> M unit) : M bool :=
  if is_plugin then
    call (kw_msg ("Command not available. Plugin already installed." +:+ LF)) tt ;;
    ret false
  else
    let src := SELF in
    installed <- is_installed ;;
    replace_ok <-
      (if installed : bool then
         btnid <- call (kw_ask_yn ASKBTN_NO "File exists. Replace?") (ask_yn_answer h) ;;
         ret (askbtn_eqb btnid ASKBTN_YES)
       else ret true) ;;
    if negb replace_ok then ret false
    else
      dst <- get_target_dir ;;
      let usrdir := os_path_dirname dst in
      call (kw_msg ("Copying script from " +:+ DQ +:+ src +:+ DQ +:+ " to "
                    +:+ DQ +:+ usrdir +:+ DQ +:+ " ...")) tt ;;
      present <- os_path_exists usrdir ;;
      created <-
        (if negb present then
           try_except
             (makedirs usrdir ;; ret true)
             (fun e =>
                match e with
                | OSError errno =>
                    if negb (errno =? errno_EEXIST h) then
                      call (kw_msg ("failed (mkdir)!" +:+ LF)) tt ;;
                      ret false
                    else ret true
                | _ => raise e
                end)
         else ret true) ;;
      if negb created then ret false
      else
        copied <-
          try_except
            (shutil_copy (copy_fault h) src dst ;; ret true)
            (fun _ =>
               call (kw_msg ("failed (copy)!" +:+ LF)) tt ;;
               ret false) ;;
        if negb copied then ret false
        else
          call (kw_msg ("done!" +:+ LF)) tt ;;
          ret true.

Definition install_plugin : M bool := install_plugin_with os_path_makedirs.

(** The [for] loop of [is_ida_version], over the indices still to visit. *)
Fixpoint is_ida_version_loop (kv rv : list string) (indices : list nat) : M bool :=
  match indices with
  | [] => ret true
  | i :: rest =>
      kvi <- lift (py_getitem kv (Z.of_nat i)) ;;
      k <- lift (py_int kvi) ;;
      rvi <- lift (py_getitem rv (Z.of_nat i)) ;;
      r <- lift (py_int rvi) ;;
      if k <? r then ret false
      else is_ida_version_loop kv rv rest
  end.

Definition is_ida_version (requested : string) : M bool :=
  let rv := py_split "."%char requested in
  v <- call kw_get_kernel_version (kernel_version h) ;;
  let kv := py_split "."%char v in
  let count := Nat.min (length rv) (length kv) in
  if Nat.eqb count 0 then ret false
  else is_ida_version_loop kv rv (seq 0 count).

Definition is_compatible : M bool :=
  let min_ida_ver := "7.3" in
  ok <- is_ida_version min_ida_ver ;;
  if ok : bool then call hr_init_hexrays_plugin (hexrays_present h)
  else ret false.

(** The table at the head of [ask_desired_maturity]. *)
Definition maturity_levels : list (string * mba_maturity_t) :=
  [ ("MMAT_GENERATED", MMAT_GENERATED);
    ("MMAT_PREOPTIMIZED", MMAT_PREOPTIMIZED);
    ("MMAT_LOCOPT", MMAT_LOCOPT);
    ("MMAT_CALLS", MMAT_CALLS);
    ("MMAT_GLBOPT1", MMAT_GLBOPT1);
    ("MMAT_GLBOPT2", MMAT_GLBOPT2);
    ("MMAT_GLBOPT3", MMAT_GLBOPT3);
    ("MMAT_LVARS", MMAT_LVARS) ].

(** [MaturityForm()]: a drop-down list [mat_lvl] and a check box group
    [chkgroup_flags] with the single box [flags_short]. *)
Definition MaturityForm : form_t :=
  {| form_title := genmc_wanted_name;
     form_dropdown_label := "Maturity level";
     form_dropdown_items := map fst maturity_levels;
     form_chkgroup_label := "MBA Flags";
     form_checkboxes := [("flags_short", "MBA_SHORT")] |}.

Definition ask_desired_maturity
  : M (option string * option mba_maturity_t * Z) :=
  let form := MaturityForm in
  call (Form_Compile form) tt ;;
  ok <- call Form_Execute (form_ok h) ;;
  let mmat := None in
  let text := None in
  let flags := 0 in
  chosen <-
    (if ok =? 1 then
       entry <- lift (py_getitem maturity_levels (form_mat_lvl_value h)) ;;
       ret (Some (fst entry), Some (snd entry))
     else ret (text, mmat)) ;;
  let flags :=
    Z.lor flags (if form_flags_short_checked h then hr_MBA_SHORT h else 0) in
  call Form_Free tt ;;
  ret (fst chosen, snd chosen, flags).

(** [mba._print(vp)]: the host calls [vp._print] once per line. *)
Definition mba_print_to (mba : mba_t) (flags : Z) (vp : printer_t.t)
  : M printer_t.t :=
  call mba_print tt ;;
  ret (snd (printer_t.feed vp (mba_dump mba flags))).

Fixpoint AddLines (lines : list string) : M unit :=
  match lines with
  | [] => ret tt
  | line :: rest => call (viewer_AddLine line) tt ;; AddLines rest
  end.

(** [microcode_viewer_t.Create] *)
Definition microcode_viewer_Create (title : string) (lines : list string) : M bool :=
  let title := "Microcode: " +:+ title in
  created <- call (viewer_Create title) (viewer_create_ok h) ;;
  if negb created then ret false
  else
    AddLines lines ;;
    ret true.

(** [str(x)] for a value that is a string or [None]. *)
Definition py_str (x : option string) : string :=
  match x with
  | Some t => t
  | None => "None"
  end.

Definition show_microcode : M (bool * string) :=
  r <- call kw_read_range_selection (range_selection h) ;;
  let '(sel, sea, eea) := r in
  ea <- call kw_get_screen_ea (screen_ea h) ;;
  pfn <- call (ida_funcs_get_func ea) (get_func h ea) ;;
  match sel, pfn with
  | false, None =>
      ret (false, "Position cursor within a function or select range")
  | _, _ =>
      let '(sea, eea) :=
        match sel, pfn with
        | false, Some f => (start_ea f, end_ea f)
        | _, _ => (sea, eea)
        end in
      is64 <- call ida_ida_inf_is_64bit (inf_is_64bit h) ;;
      let addr_fmt := if is64 : bool then py_fmt_0x 16 else py_fmt_0x 8 in
      F <- call (ida_bytes_get_flags sea) (get_flags h sea) ;;
      code <- call (ida_bytes_is_code F) (is_code h F) ;;
      if negb code then
        ret (false, "The selected range must start with an instruction")
      else
        m <- ask_desired_maturity ;;
        let '(text, mmat, mba_flags) := m in
        match text, mmat with
        | None, None => ret (true, "Cancelled")
        | _, _ =>
            g <- call (hr_gen_microcode sea eea (hr_DECOMP_WARNINGS h) mmat)
                      (gen_microcode h sea eea (hr_DECOMP_WARNINGS h) mmat) ;;
            let '(mba, hf) := g in
            match mba with
            | None =>
                ret (false, "0x" +:+ addr_fmt (errea hf) +:+ ": " +:+ str hf)
            | Some mba =>
                let vp := printer_t.init in
                call (mba_set_mba_flags mba_flags) tt ;;
                vp <- mba_print_to mba mba_flags vp ;;
                created <-
                  microcode_viewer_Create
                    ("0x" +:+ addr_fmt sea +:+ "-0x" +:+ addr_fmt eea
                     +:+ " (" +:+ py_str text +:+ ")")
                    (printer_t.get_mc vp) ;;
                if negb created then ret (false, "Error creating viewer")
                else
                  call viewer_Show tt ;;
                  ret (true,
                       "Successfully generated microcode for 0x" +:+ addr_fmt sea
                       +:+ "..0x" +:+ addr_fmt eea)
            end
        end
  end.

Definition create_mc_widget : M bool :=
  compatible <- is_compatible ;;
  if negb compatible then
    call (kw_msg (genmc_wanted_name +:+ ": Unsupported IDA / Hex-rays version" +:+ LF)) tt ;;
    ret false
  else
    r <- show_microcode ;;
    let '(success, message) := r in
    let output := if success : bool then kw_msg else kw_warning in
    call (output (genmc_wanted_name +:+ ": " +:+ message +:+ LF)) tt ;;
    ret success.

(** [genmc.init] *)
Definition genmc_init : M plugin_rc :=
  compatible <- is_compatible ;;
  ret (if compatible : bool then PLUGIN_OK else PLUGIN_SKIP).

(** [genmc.run] *)
Definition genmc_run (arg : Z) : M unit :=
  create_mc_widget ;;
  ret tt.

(** [genmc.term] *)
Definition genmc_term : M unit := ret tt.

Definition SCRIPT_ENTRY : M bool :=
  if negb is_plugin then
    installed <- is_installed ;;
    (if negb installed then
       call (kw_msg (genmc_wanted_name +:+ ": Available commands:" +:+ LF
                     +:+ "[+] " +:+ DQ +:+ "install_plugin()" +:+ DQ
                     +:+ " - install script to ida_userdir/plugins" +:+ LF)) tt
     else ret tt) ;;
    create_mc_widget ;;
    ret true
  else ret false.

End Script.

(* ------------------------------------------------------------------ *)
(** ** Observing a run *)

(** What a computation returns (or raises) from a state. *)
Definition value_of {A : Type} (m : M A) (s : state) : result A := fst (m s).

(** The calls into the host a computation makes from a state, in order. *)
Definition events_of {A : Type} (m : M A) (s : state) : list event :=
  skipn (length (trace s)) (trace (snd (m s))).

(** The state [s] after the calls [evs] have been written to its trace. *)
Definition extend (s : state) (evs : list event) : state :=
  {| fs_dirs := fs_dirs s; fs_files := fs_files s; trace := trace s ++ evs |}.

Definition is_gen_microcode (e : event) : bool :=
  match e with
  | hr_gen_microcode _ _ _ _ => true
  | _ => false
  end.

Definition is_form_event (e : event) : bool :=
  match e with
  | Form_Compile _ | Form_Execute | Form_Free => true
  | _ => false
  end.

(** The two output channels of the host, [kw.msg] and [kw.warning]. *)
Definition is_output_event (e : event) : bool :=
  match e with
  | kw_msg _ | kw_warning _ => true
  | _ => false
  end.

(** The calls that only [show_microcode] and what it calls make. *)
Definition is_show_microcode_event (e : event) : bool :=
  match e with
  | kw_msg _ | kw_warning _ | kw_ask_yn _ _ | kw_get_kernel_version
  | hr_init_hexrays_plugin | ida_diskio_get_user_idadir => false
  | _ => true
  end.

(* ------------------------------------------------------------------ *)
(** ** The runs of [show_microcode]

    The ways in which [show_microcode] can end, each with what it returns
    (or raises) and the calls into the host it made.  [show_microcode_run]
    below proves that every run is one of these. *)

Section Runs.

Variable h : host.

(** The address range [show_microcode] works on: the selection if there
    is one, otherwise the function under the cursor. *)
Inductive chosen_range : N -> N -> Prop :=
| range_selected (sea eea : N) :
    range_selection h = (true, sea, eea) ->
    chosen_range sea eea
| range_function (sea0 eea0 : N) (pfn : func_t) :
    range_selection h = (false, sea0, eea0) ->
    get_func h (screen_ea h) = Some pfn ->
    chosen_range (start_ea pfn) (end_ea pfn).

Definition addr_fmt : N -> string :=
  py_fmt_0x (if inf_is_64bit h then 16%nat else 8%nat).

Definition range_calls : list event :=
  [kw_read_range_selection; kw_get_screen_ea; ida_funcs_get_func (screen_ea h)].

Definition code_calls (sea : N) : list event :=
  range_calls
  ++ [ida_ida_inf_is_64bit; ida_bytes_get_flags sea;
      ida_bytes_is_code (get_flags h sea)].

Definition dialog_calls : list event :=
  [Form_Compile MaturityForm; Form_Execute; Form_Free].

(** The flags [ask_desired_maturity] returns. *)
Definition dialog_flags : Z :=
  if form_flags_short_checked h then hr_MBA_SHORT h else 0.

Definition generator_call (sea eea : N) (mmat : mba_maturity_t) : event :=
  hr_gen_microcode sea eea (hr_DECOMP_WARNINGS h) (Some mmat).

Definition viewer_title (sea eea : N) (text : string) : string :=
  "Microcode: 0x" +:+ addr_fmt sea +:+ "-0x" +:+ addr_fmt eea
  +:+ " (" +:+ text +:+ ")".

Inductive show_microcode_outcome : result (bool * string) -> list event -> Prop :=
| run_no_range (sea0 eea0 : N) :
    range_selection h = (false, sea0, eea0) ->
    get_func h (screen_ea h) = None ->
    show_microcode_outcome
      (Return (false, "Position cursor within a function or select range"))
      range_calls
| run_not_code (sea eea : N) :
    chosen_range sea eea ->
    is_code h (get_flags h sea) = false ->
    show_microcode_outcome
      (Return (false, "The selected range must start with an instruction"))
      (code_calls sea)
| run_cancelled (sea eea : N) :
    chosen_range sea eea ->
    is_code h (get_flags h sea) = true ->
    form_ok h <> 1 ->
    show_microcode_outcome
      (Return (true, "Cancelled"))
      (code_calls sea ++ dialog_calls)
| run_bad_index (sea eea : N) (e : exn) :
    chosen_range sea eea ->
    is_code h (get_flags h sea) = true ->
    form_ok h = 1 ->
    py_getitem maturity_levels (form_mat_lvl_value h) = Raise e ->
    show_microcode_outcome
      (Raise e)
      (code_calls sea ++ [Form_Compile MaturityForm; Form_Execute])
| run_no_mba (sea eea : N) (text : string) (mmat : mba_maturity_t)
             (hf : hexrays_failure_t) :
    chosen_range sea eea ->
    is_code h (get_flags h sea) = true ->
    form_ok h = 1 ->
    py_getitem maturity_levels (form_mat_lvl_value h) = Return (text, mmat) ->
    gen_microcode h sea eea (hr_DECOMP_WARNINGS h) (Some mmat) = (None, hf) ->
    show_microcode_outcome
      (Return (false, "0x" +:+ addr_fmt (errea hf) +:+ ": " +:+ str hf))
      (code_calls sea ++ dialog_calls ++ [generator_call sea eea mmat])
| run_no_viewer (sea eea : N) (text : string) (mmat : mba_maturity_t)
                (mba : mba_t) (hf : hexrays_failure_t) :
    chosen_range sea eea ->
    is_code h (get_flags h sea) = true ->
    form_ok h = 1 ->
    py_getitem maturity_levels (form_mat_lvl_value h) = Return (text, mmat) ->
    gen_microcode h sea eea (hr_DECOMP_WARNINGS h) (Some mmat) = (Some mba, hf) ->
    viewer_create_ok h = false ->
    show_microcode_outcome
      (Return (false, "Error creating viewer"))
      (code_calls sea ++ dialog_calls
       ++ [generator_call sea eea mmat; mba_set_mba_flags dialog_flags;
           mba_print; viewer_Create (viewer_title sea eea text)])
| run_shown (sea eea : N) (text : string) (mmat : mba_maturity_t)
            (mba : mba_t) (hf : hexrays_failure_t) :
    chosen_range sea eea ->
    is_code h (get_flags h sea) = true ->
    form_ok h = 1 ->
    py_getitem maturity_levels (form_mat_lvl_value h) = Return (text, mmat) ->
    gen_microcode h sea eea (hr_DECOMP_WARNINGS h) (Some mmat) = (Some mba, hf) ->
    viewer_create_ok h = true ->
    show_microcode_outcome
      (Return (true,
               "Successfully generated microcode for 0x" +:+ addr_fmt sea
               +:+ "..0x" +:+ addr_fmt eea))
      (code_calls sea ++ dialog_calls
       ++ [generator_call sea eea mmat; mba_set_mba_flags dialog_flags;
           mba_print; viewer_Create (viewer_title sea eea text)]
       ++ map viewer_AddLine (map snd (mba_dump mba dialog_flags))
       ++ [viewer_Show]).

End Runs.

(* ------------------------------------------------------------------ *)
(** ** The installer's paths *)

(** The value of [get_target_dir()]: the path of the installed plugin. *)
Definition target_path (h : host) : string :=
  os_path_join (os_path_join (user_idadir h) "plugins") (genmc_wanted_name +:+ ".py").

(** The user plugin directory, [usrdir] in [install_plugin]. *)
Definition plugin_dir (h : host) : string := os_path_dirname (target_path h).

(** The first message of [install_plugin]. *)
Definition copying_message (h : host) : string :=
  "Copying script from " +:+ DQ +:+ SELF h +:+ DQ +:+ " to "
  +:+ DQ +:+ plugin_dir h +:+ DQ +:+ " ...".

(** The calls [install_plugin] has made when it reaches the directory
    check, the plugin not being installed yet. *)
Definition install_calls (h : host) : list event :=
  [ida_diskio_get_user_idadir; ida_diskio_get_user_idadir;
   kw_msg (copying_message h)].

(* ------------------------------------------------------------------ *)
(** ** Sample hosts and states *)

(** A microcode object with a two-line dump (one line in short mode). *)
Definition demo_mba : mba_t :=
  {| mba_dump := fun flags =>
       if flags =? 0 then [(0, "0. 0 mov eax, ebx"); (0, "0. 1 ret")]
       else [(0, "0. 0 mov eax, ebx")] |}.

(** A session on a 64-bit database whose only function is at
    [0x401000..0x401064]; the arguments set the answers that vary. *)
Definition demo_host (name kernel : string) (hexrays : bool) (cursor flags_at : N)
    (ok idx : Z) (short : bool) (generated : bool) : host :=
  {| module_name := name;
     module_file := "/home/u/dl/genmc.py";
     errno_EEXIST := 17;
     hr_MBA_SHORT := 4194304;
     hr_DECOMP_WARNINGS := 16;
     user_idadir := "/home/u/.idapro";
     ask_yn_answer := ASKBTN_YES;
     mkdir_fault := None;
     copy_fault := None;
     kernel_version := kernel;
     hexrays_present := hexrays;
     range_selection := (false, 0%N, 0%N);
     screen_ea := cursor;
     get_func := fun ea =>
       if ((4198400 <=? ea) && (ea <? 4198500))%N
       then Some {| start_ea := 4198400; end_ea := 4198500 |} else None;
     inf_is_64bit := true;
     get_flags := fun _ => flags_at;
     is_code := fun F => (N.land F 1536 =? 1536)%N;
     form_ok := ok;
     form_mat_lvl_value := idx;
     form_flags_short_checked := short;
     gen_microcode := fun _ _ _ _ =>
       if generated
       then (Some demo_mba, {| errea := 18446744073709551615; str := EmptyString |})
       else (None, {| errea := 4198402; str := "positive sp value has been found" |});
     viewer_create_ok := true |}.

(** The script run from a download directory on IDA 7.5: the cursor is in
    the function, the dialog is accepted with MMAT_LOCOPT selected and
    microcode is generated. *)
Definition script_host : host :=
  demo_host "__main__" "7.5" true 4198416 1536 1 2 false true.

(** The same with the MBA_SHORT box checked. *)
Definition short_host : host :=
  demo_host "__main__" "7.5" true 4198416 1536 1 2 true true.

(** The same on a kernel that reports version 8.2. *)
Definition kernel_8_2_host : host :=
  demo_host "__main__" "8.2" true 4198416 1536 1 2 false true.

(** The same on a kernel that reports version 7.2. *)
Definition kernel_7_2_host : host :=
  demo_host "__main__" "7.2" true 4198416 1536 1 2 false true.

(** The same with data, not code, at the start of the function. *)
Definition data_host : host :=
  demo_host "__main__" "7.5" true 4198416 1024 1 2 false true.

(** The same with the cursor outside of any function. *)
Definition nowhere_host : host :=
  demo_host "__main__" "7.5" true 0 1536 1 2 false true.

(** The same with the dialog cancelled. *)
Definition cancel_host : host :=
  demo_host "__main__" "7.5" true 4198416 1536 0 0 false true.

(** The same with a generator that fails. *)
Definition failing_host : host :=
  demo_host "__main__" "7.5" true 4198416 1536 1 2 false false.

(** The script loaded by IDA as a plugin. *)
Definition plugin_host : host :=
  demo_host "__plugins__genmc" "7.5" true 4198416 1536 1 2 false true.

(** A file system in which the user's IDA directory has no [plugins]
    directory yet. *)
Definition fresh_state : state :=
  {| fs_dirs := {[ "/"; "/home"; "/home/u"; "/home/u/dl"; "/home/u/.idapro" ]};
     fs_files := {[ "/home/u/dl/genmc.py" := "# genmc" ]};
     trace := [] |}.

(** The same with the [plugins] directory in place. *)
Definition plugins_state : state :=
  {| fs_dirs := {[ "/home/u/.idapro/plugins" ]} ∪ fs_dirs fresh_state;
     fs_files := fs_files fresh_state;
     trace := [] |}.

(* ------------------------------------------------------------------ *)
(** ** More sample hosts and states *)

(** [h] with another answer to the yes/no box. *)
Definition with_ask_yn (x : askbtn) (h : host) : host :=
  {| module_name := module_name h;
     module_file := module_file h;
     errno_EEXIST := errno_EEXIST h;
     hr_MBA_SHORT := hr_MBA_SHORT h;
     hr_DECOMP_WARNINGS := hr_DECOMP_WARNINGS h;
     user_idadir := user_idadir h;
     ask_yn_answer := x;
     mkdir_fault := mkdir_fault h;
     copy_fault := copy_fault h;
     kernel_version := kernel_version h;
     hexrays_present := hexrays_present h;
     range_selection := range_selection h;
     screen_ea := screen_ea h;
     get_func := get_func h;
     inf_is_64bit := inf_is_64bit h;
     get_flags := get_flags h;
     is_code := is_code h;
     form_ok := form_ok h;
     form_mat_lvl_value := form_mat_lvl_value h;
     form_flags_short_checked := form_flags_short_checked h;
     gen_microcode := gen_microcode h;
     viewer_create_ok := viewer_create_ok h |}.

(** [h] with another answer to the selection query. *)
Definition with_range_selection (x : bool * N * N) (h : host) : host :=
  {| module_name := module_name h;
     module_file := module_file h;
     errno_EEXIST := errno_EEXIST h;
     hr_MBA_SHORT := hr_MBA_SHORT h;
     hr_DECOMP_WARNINGS := hr_DECOMP_WARNINGS h;
     user_idadir := user_idadir h;
     ask_yn_answer := ask_yn_answer h;
     mkdir_fault := mkdir_fault h;
     copy_fault := copy_fault h;
     kernel_version := kernel_version h;
     hexrays_present := hexrays_present h;
     range_selection := x;
     screen_ea := screen_ea h;
     get_func := get_func h;
     inf_is_64bit := inf_is_64bit h;
     get_flags := get_flags h;
     is_code := is_code h;
     form_ok := form_ok h;
     form_mat_lvl_value := form_mat_lvl_value h;
     form_flags_short_checked := form_flags_short_checked h;
     gen_microcode := gen_microcode h;
     viewer_create_ok := viewer_create_ok h |}.

(** [h] with another answer of the viewer creation. *)
Definition with_viewer_create (x : bool) (h : host) : host :=
  {| module_name := module_name h;
     module_file := module_file h;
     errno_EEXIST := errno_EEXIST h;
     hr_MBA_SHORT := hr_MBA_SHORT h;
     hr_DECOMP_WARNINGS := hr_DECOMP_WARNINGS h;
     user_idadir := user_idadir h;
     ask_yn_answer := ask_yn_answer h;
     mkdir_fault := mkdir_fault h;
     copy_fault := copy_fault h;
     kernel_version := kernel_version h;
     hexrays_present := hexrays_present h;
     range_selection := range_selection h;
     screen_ea := screen_ea h;
     get_func := get_func h;
     inf_is_64bit := inf_is_64bit h;
     get_flags := get_flags h;
     is_code := is_code h;
     form_ok := form_ok h;
     form_mat_lvl_value := form_mat_lvl_value h;
     form_flags_short_checked := form_flags_short_checked h;
     gen_microcode := gen_microcode h;
     viewer_create_ok := x |}.

(** [h] with another kernel version. *)
Definition with_kernel_version (x : string) (h : host) : host :=
  {| module_name := module_name h;
     module_file := module_file h;
     errno_EEXIST := errno_EEXIST h;
     hr_MBA_SHORT := hr_MBA_SHORT h;
     hr_DECOMP_WARNINGS := hr_DECOMP_WARNINGS h;
     user_idadir := user_idadir h;
     ask_yn_answer := ask_yn_answer h;
     mkdir_fault := mkdir_fault h;
     copy_fault := copy_fault h;
     kernel_version := x;
     hexrays_present := hexrays_present h;
     range_selection := range_selection h;
     screen_ea := screen_ea h;
     get_func := get_func h;
     inf_is_64bit := inf_is_64bit h;
     get_flags := get_flags h;
     is_code := is_code h;
     form_ok := form_ok h;
     form_mat_lvl_value := form_mat_lvl_value h;
     form_flags_short_checked := form_flags_short_checked h;
     gen_microcode := gen_microcode h;
     viewer_create_ok := viewer_create_ok h |}.

(** The user answers No to "File exists. Replace?". *)
Definition declining_host : host := with_ask_yn ASKBTN_NO script_host.

(** The bytes [0x401010..0x401020] are selected. *)
Definition selecting_host : host :=
  with_range_selection (true, 4198416%N, 4198432%N) script_host.

(** The host cannot create the viewer. *)
Definition no_viewer_host : host := with_viewer_create false script_host.

(** A kernel whose version string is not numeric. *)
Definition beta_host : host := with_kernel_version "beta" script_host.

(** A kernel that reports the single component 7. *)
Definition kernel_7_host : host := with_kernel_version "7" script_host.

(** The plugin already installed, with an older copy of the script. *)
Definition installed_state : state :=
  {| fs_dirs := fs_dirs plugins_state;
     fs_files := <[ "/home/u/.idapro/plugins/genmc.py" := "# old" ]> (fs_files fresh_state);
     trace := [] |}.

(** The hint [SCRIPT_ENTRY] prints when the plugin is not installed. *)
Definition commands_hint : string :=
  genmc_wanted_name +:+ ": Available commands:" +:+ LF
  +:+ "[+] " +:+ DQ +:+ "install_plugin()" +:+ DQ
  +:+ " - install script to ida_userdir/plugins" +:+ LF.


(** Does the path contain no slash? *)
Definition no_slash (p : string) : bool := negb (has_slash p).


(** [h] with another I/O fault of the copy. *)
Definition with_copy_fault (x : option (exn * copy_stage)) (h : host) : host :=
  {| module_name := module_name h;
     module_file := module_file h;
     errno_EEXIST := errno_EEXIST h;
     hr_MBA_SHORT := hr_MBA_SHORT h;
     hr_DECOMP_WARNINGS := hr_DECOMP_WARNINGS h;
     user_idadir := user_idadir h;
     ask_yn_answer := ask_yn_answer h;
     mkdir_fault := mkdir_fault h;
     copy_fault := x;
     kernel_version := kernel_version h;
     hexrays_present := hexrays_present h;
     range_selection := range_selection h;
     screen_ea := screen_ea h;
     get_func := get_func h;
     inf_is_64bit := inf_is_64bit h;
     get_flags := get_flags h;
     is_code := is_code h;
     form_ok := form_ok h;
     form_mat_lvl_value := form_mat_lvl_value h;
     form_flags_short_checked := form_flags_short_checked h;
     gen_microcode := gen_microcode h;
     viewer_create_ok := viewer_create_ok h |}.

(** The disk is full (errno 28) after three characters of the copy. *)
Definition disk_full_host : host :=
  with_copy_fault (Some (IOError 28, on_write 3)) script_host.

(* ------------------------------------------------------------------ *)
(** * Properties *)

(** ** Traces *)

Lemma extend_nil s : extend s [] = s.
Proof. destruct s; unfold extend; simpl. now rewrite app_nil_r. Qed.

Lemma log_extend e s evs : log e (extend s evs) = extend s (evs ++ [e]).
Proof. unfold log, extend; simpl. now rewrite app_assoc. Qed.

Lemma log_as_extend e s : log e s = extend s [e].
Proof. reflexivity. Qed.

Lemma extend_extend s evs evs' : extend (extend s evs) evs' = extend s (evs ++ evs').
Proof. unfold extend; simpl. now rewrite app_assoc. Qed.

Lemma events_since_extend s evs :
  skipn (length (trace s)) (trace (extend s evs)) = evs.
Proof.
  unfold extend; simpl.
  rewrite skipn_app, skipn_all, Nat.sub_diag. reflexivity.
Qed.

Lemma events_of_run {A : Type} (m : M A) s r evs :
  m s = (r, extend s evs) -> value_of m s = r /\ events_of m s = evs.
Proof.
  intros E. unfold value_of, events_of. rewrite E. simpl.
  split; [reflexivity | apply events_since_extend].
Qed.

(** Brings a state reached by a sequence of calls to the form
    [extend s evs]. *)
Ltac norm_state :=
  rewrite ?log_as_extend, ?extend_extend; cbn [app].

Lemma call_run {A : Type} (e : event) (a : A) s evs :
  call e a (extend s evs) = (Return a, extend s (evs ++ [e])).
Proof. unfold call. now rewrite log_extend. Qed.

(** ** [printer_t] *)

Lemma feed_get_mc (self : printer_t.t) (calls : list (Z * string)) :
  printer_t.get_mc (snd (printer_t.feed self calls))
  = printer_t.get_mc self ++ map snd calls.
Proof.
  revert self. induction calls as [| [indent line] rest IH]; intros self; simpl.
  - now rewrite app_nil_r.
  - specialize (IH {| printer_t.mc := printer_t.mc self ++ [line] |}).
    destruct (printer_t.feed _ rest) as [rs self'']. simpl in *.
    rewrite IH. unfold printer_t.get_mc. simpl. now rewrite <- app_assoc.
Qed.

Lemma feed_results (self : printer_t.t) (calls : list (Z * string)) :
  fst (printer_t.feed self calls) = repeat 1 (length calls).
Proof.
  revert self. induction calls as [| [indent line] rest IH]; intros self; simpl.
  - reflexivity.
  - specialize (IH {| printer_t.mc := printer_t.mc self ++ [line] |}).
    destruct (printer_t.feed _ rest) as [rs self'']. simpl in *. now rewrite IH.
Qed.

(** C6: a new [printer_t] holds no lines; [_print] appends exactly the
    given line and returns 1; after any sequence of callbacks [get_mc] is
    the list of the printed lines in callback order, one string per
    callback. *)
Theorem printer_t_collects_lines :
  printer_t.get_mc printer_t.init = []
  /\ (forall (self : printer_t.t) (indent : Z) (line : string),
        fst (printer_t._print self indent line) = 1
        /\ printer_t.get_mc (snd (printer_t._print self indent line))
           = printer_t.get_mc self ++ [line])
  /\ (forall calls : list (Z * string),
        fst (printer_t.feed printer_t.init calls) = repeat 1 (length calls)
        /\ printer_t.get_mc (snd (printer_t.feed printer_t.init calls))
           = map snd calls
        /\ length (printer_t.get_mc (snd (printer_t.feed printer_t.init calls)))
           = length calls).
Proof.
  split; [reflexivity |]. split.
  - intros self indent line. split; reflexivity.
  - intros calls. split; [apply feed_results |].
    assert (E : printer_t.get_mc (snd (printer_t.feed printer_t.init calls))
                = map snd calls) by (rewrite feed_get_mc; reflexivity).
    split; [exact E |]. rewrite E. apply length_map.
Qed.

(** ** [is_ida_version] *)

Lemma py_getitem_nat {A : Type} (l : list A) (i : nat) :
  py_getitem l (Z.of_nat i)
  = match nth_error l i with
    | Some x => Return x
    | None => Raise IndexError
    end.
Proof.
  unfold py_getitem.
  destruct (Z.ltb_spec (Z.of_nat i) 0) as [Hneg | _]; [lia |].
  destruct (Z.ltb_spec (Z.of_nat i) 0) as [Hneg | _]; [lia |]. simpl.
  rewrite Nat2Z.id.
  destruct (Z.leb_spec (Z.of_nat (length l)) (Z.of_nat i)) as [Hge | Hlt].
  - assert (Hnone : nth_error l i = None) by (apply nth_error_None; lia).
    now rewrite Hnone.
  - reflexivity.
Qed.

Lemma py_getitem_nth (l : list string) (i : nat) :
  (i < length l)%nat -> py_getitem l (Z.of_nat i) = Return (nth i l EmptyString).
Proof.
  intros Hi. rewrite py_getitem_nat.
  now rewrite (nth_error_nth' l EmptyString Hi).
Qed.

(** One turn of the loop, with both components in range. *)
Lemma is_ida_version_loop_step (kv rv : list string) (i : nat) rest s :
  (i < length kv)%nat -> (i < length rv)%nat ->
  is_ida_version_loop kv rv (i :: rest) s
  = match py_int (nth i kv EmptyString) with
    | Raise e => (Raise e, s)
    | Return k =>
        match py_int (nth i rv EmptyString) with
        | Raise e => (Raise e, s)
        | Return r =>
            if k <? r then (Return false, s)
            else is_ida_version_loop kv rv rest s
        end
    end.
Proof.
  intros Hk Hr. simpl. unfold bind, lift.
  rewrite (py_getitem_nth kv i Hk), (py_getitem_nth rv i Hr).
  destruct (py_int (nth i kv EmptyString)) as [k | e]; [| reflexivity].
  destruct (py_int (nth i rv EmptyString)) as [r | e]; [| reflexivity].
  destruct (k <? r); reflexivity.
Qed.

Lemma is_ida_version_loop_state (kv rv : list string) indices s :
  snd (is_ida_version_loop kv rv indices s) = s.
Proof.
  induction indices as [| i rest IH]; simpl; [reflexivity |].
  unfold bind, lift.
  destruct (py_getitem kv (Z.of_nat i)) as [kvi | e]; [| reflexivity].
  destruct (py_int kvi) as [k | e]; [| reflexivity].
  destruct (py_getitem rv (Z.of_nat i)) as [rvi | e]; [| reflexivity].
  destruct (py_int rvi) as [r | e]; [| reflexivity].
  destruct (k <? r); [reflexivity | exact IH].
Qed.

Lemma is_ida_version_loop_true (kv rv : list string) indices s :
  Forall (fun i => (i < length kv)%nat /\ (i < length rv)%nat) indices ->
  (fst (is_ida_version_loop kv rv indices s) = Return true
   <-> Forall (fun i => exists k r,
                 py_int (nth i kv EmptyString) = Return k
                 /\ py_int (nth i rv EmptyString) = Return r
                 /\ r <= k) indices).
Proof.
  induction indices as [| i rest IH]; intros Hin.
  - simpl. split; [constructor | reflexivity].
  - inversion Hin as [| ? ? [Hk Hr] Hrest]; subst.
    rewrite (is_ida_version_loop_step kv rv i rest s Hk Hr).
    specialize (IH Hrest).
    destruct (py_int (nth i kv EmptyString)) as [k | e] eqn:Ek.
    + destruct (py_int (nth i rv EmptyString)) as [r | e] eqn:Er.
      * destruct (Z.ltb_spec k r) as [Hlt | Hge].
        -- simpl. split; [discriminate |].
           intros HF. apply Forall_inv in HF. destruct HF as (k' & r' & E1 & E2 & Hle).
           assert (k' = k) by congruence. assert (r' = r) by congruence. lia.
        -- rewrite IH. split.
           ++ intros HF. constructor; [| exact HF]. exists k, r. auto.
           ++ intros HF. exact (Forall_inv_tail HF).
      * simpl. split; [discriminate |].
        intros HF. apply Forall_inv in HF. destruct HF as (k' & r' & _ & E2 & _).
        congruence.
    + simpl. split; [discriminate |].
      intros HF. apply Forall_inv in HF. destruct HF as (k' & r' & E1 & _).
      congruence.
Qed.

Lemma is_ida_version_unfold (h : host) (requested : string) s :
  let rv := py_split "."%char requested in
  let kv := py_split "."%char (kernel_version h) in
  let count := Nat.min (length rv) (length kv) in
  is_ida_version h requested s
  = if Nat.eqb count 0 then (Return false, extend s [kw_get_kernel_version])
    else (fst (is_ida_version_loop kv rv (seq 0 count) (extend s [kw_get_kernel_version])),
          extend s [kw_get_kernel_version]).
Proof.
  intros rv kv count. unfold is_ida_version, bind, call.
  fold rv kv count. rewrite log_as_extend.
  destruct (Nat.eqb count 0); [reflexivity |].
  rewrite <- (is_ida_version_loop_state kv rv (seq 0 count)
                (extend s [kw_get_kernel_version])) at 3.
  now destruct (is_ida_version_loop kv rv (seq 0 count) _).
Qed.

Lemma py_split_length (sep : ascii) (s : string) :
  (1 <= length (py_split sep s))%nat.
Proof.
  induction s as [| c rest IH]; simpl; [lia |].
  destruct (Ascii.eqb c sep); simpl; [lia |].
  destruct (py_split sep rest); simpl; lia.
Qed.

(** C8: [is_ida_version] answers True exactly when every compared dotted
    component of the kernel version is, as a number, at least the same
    component of the requested version; so a kernel version with a larger
    first and a smaller second component is rejected, as is kernel 8.2
    against the minimum 7.3. *)
Theorem is_ida_version_componentwise (h : host) (requested : string) (s : state) :
  let rv := py_split "."%char requested in
  let kv := py_split "."%char (kernel_version h) in
  (value_of (is_ida_version h requested) s = Return true
   <-> forall i : nat, (i < Nat.min (length rv) (length kv))%nat ->
         exists k r : Z,
           py_int (nth i kv EmptyString) = Return k
           /\ py_int (nth i rv EmptyString) = Return r
           /\ r <= k)
  /\ (forall k0 r0 k1 r1 : Z,
        (2 <= length kv)%nat -> (2 <= length rv)%nat ->
        py_int (nth 0 kv EmptyString) = Return k0 ->
        py_int (nth 0 rv EmptyString) = Return r0 ->
        py_int (nth 1 kv EmptyString) = Return k1 ->
        py_int (nth 1 rv EmptyString) = Return r1 ->
        r0 < k0 -> k1 < r1 ->
        value_of (is_ida_version h requested) s = Return false)
  /\ (requested = "7.3" -> kernel_version h = "8.2" ->
      value_of (is_ida_version h requested) s = Return false).
Proof.
  intros rv kv.
  pose proof (py_split_length "."%char requested) as Hrv.
  pose proof (py_split_length "."%char (kernel_version h)) as Hkv.
  fold rv in Hrv. fold kv in Hkv.
  assert (Hgeneral : forall k0 r0 k1 r1 : Z,
        (2 <= length kv)%nat -> (2 <= length rv)%nat ->
        py_int (nth 0 kv EmptyString) = Return k0 ->
        py_int (nth 0 rv EmptyString) = Return r0 ->
        py_int (nth 1 kv EmptyString) = Return k1 ->
        py_int (nth 1 rv EmptyString) = Return r1 ->
        r0 < k0 -> k1 < r1 ->
        value_of (is_ida_version h requested) s = Return false).
  { intros k0 r0 k1 r1 Lk Lr E0k E0r E1k E1r H0 H1.
    unfold value_of. rewrite is_ida_version_unfold. fold rv kv.
    destruct (Nat.min (length rv) (length kv)) as [| [| c]] eqn:Ec; [lia | lia |].
    change (seq 0 (S (S c))) with (0 :: 1 :: seq 2 c)%nat. simpl Nat.eqb. cbv iota.
    cbn [fst].
    rewrite is_ida_version_loop_step by lia. rewrite E0k, E0r.
    destruct (Z.ltb_spec k0 r0) as [Hlt | _]; [lia |].
    rewrite is_ida_version_loop_step by lia. rewrite E1k, E1r.
    destruct (Z.ltb_spec k1 r1) as [_ | Hge]; [reflexivity | lia]. }
  split; [| split].
  - unfold value_of. rewrite is_ida_version_unfold. fold rv kv.
    destruct (Nat.eqb_spec (Nat.min (length rv) (length kv)) 0) as [E0 | _]; [lia |].
    cbn [fst]. rewrite is_ida_version_loop_true.
    + rewrite List.Forall_forall. split.
      * intros HF i Hi. apply HF. apply in_seq. lia.
      * intros HF i Hi. apply HF. apply in_seq in Hi. lia.
    + apply List.Forall_forall. intros i Hi. apply in_seq in Hi. lia.
  - exact Hgeneral.
  - intros Ereq Eker.
    apply (Hgeneral 8 7 2 3); subst rv kv; rewrite ?Ereq, ?Eker;
      first [reflexivity | simpl; lia | lia].
Qed.

(** Kernel 8.2 against the minimum 7.3. *)
Lemma is_ida_version_componentwise_witness :
  value_of (is_ida_version kernel_8_2_host "7.3")
           fresh_state
  = Return false.
Proof.
  apply (is_ida_version_componentwise
           kernel_8_2_host "7.3" fresh_state);
    reflexivity.
Defined.

(** ** The maturity dialog *)

Lemma ask_desired_maturity_run (h : host) (s : state) :
  ask_desired_maturity h s
  = if form_ok h =? 1 then
      match py_getitem maturity_levels (form_mat_lvl_value h) with
      | Return entry =>
          (Return (Some (fst entry), Some (snd entry), dialog_flags h),
           extend s dialog_calls)
      | Raise e =>
          (Raise e, extend s [Form_Compile MaturityForm; Form_Execute])
      end
    else (Return (None, None, dialog_flags h), extend s dialog_calls).
Proof.
  unfold ask_desired_maturity, bind, call, ret, lift, dialog_flags.
  rewrite Z.lor_0_l.
  destruct (form_ok h =? 1).
  - destruct (py_getitem maturity_levels (form_mat_lvl_value h)); cbn [fst snd];
      norm_state; reflexivity.
  - cbn [fst snd]. norm_state. reflexivity.
Qed.

Lemma py_getitem_maturity_levels (i : Z) :
  0 <= i < 8 ->
  exists entry,
    nth_error maturity_levels (Z.to_nat i) = Some entry
    /\ py_getitem maturity_levels i = Return entry.
Proof.
  intros Hi.
  assert (Hcases : i = 0 \/ i = 1 \/ i = 2 \/ i = 3 \/ i = 4 \/ i = 5 \/ i = 6 \/ i = 7)
    by lia.
  repeat (destruct Hcases as [-> | Hcases]); try subst i;
    eexists; (split; [reflexivity | reflexivity]).
Qed.

(** C7: the dialog offers the eight maturity levels, in the order of the
    table, and the single check box MBA_SHORT; when it is accepted (with
    one of the eight entries selected) [ask_desired_maturity] returns the
    name and the level of the selected entry, and MBA_SHORT as flags if the
    box is checked, 0 if not. *)
Theorem ask_desired_maturity_accepted (h : host) (s : state) :
  form_ok h = 1 ->
  0 <= form_mat_lvl_value h < 8 ->
  form_dropdown_items MaturityForm
  = ["MMAT_GENERATED"; "MMAT_PREOPTIMIZED"; "MMAT_LOCOPT"; "MMAT_CALLS";
     "MMAT_GLBOPT1"; "MMAT_GLBOPT2"; "MMAT_GLBOPT3"; "MMAT_LVARS"]
  /\ map snd maturity_levels
     = [MMAT_GENERATED; MMAT_PREOPTIMIZED; MMAT_LOCOPT; MMAT_CALLS;
        MMAT_GLBOPT1; MMAT_GLBOPT2; MMAT_GLBOPT3; MMAT_LVARS]
  /\ map snd (form_checkboxes MaturityForm) = ["MBA_SHORT"]
  /\ events_of (ask_desired_maturity h) s
     = [Form_Compile MaturityForm; Form_Execute; Form_Free]
  /\ exists (text : string) (mmat : mba_maturity_t),
       nth_error maturity_levels (Z.to_nat (form_mat_lvl_value h)) = Some (text, mmat)
       /\ value_of (ask_desired_maturity h) s
          = Return (Some text, Some mmat,
                    if form_flags_short_checked h then hr_MBA_SHORT h else 0).
Proof.
  intros Hok Hidx.
  do 3 (split; [reflexivity |]).
  destruct (py_getitem_maturity_levels _ Hidx) as ([text mmat] & Hnth & Hget).
  assert (Hrun : ask_desired_maturity h s
                 = (Return (Some text, Some mmat, dialog_flags h),
                    extend s dialog_calls)).
  { rewrite ask_desired_maturity_run, Hok, Hget. reflexivity. }
  apply events_of_run in Hrun. destruct Hrun as [Hv He].
  split; [exact He |].
  exists text, mmat. split; [exact Hnth | exact Hv].
Qed.

(** The dialog accepted with MMAT_LOCOPT selected and the box checked. *)
Lemma ask_desired_maturity_accepted_witness :
  events_of (ask_desired_maturity short_host)
            fresh_state
  = [Form_Compile MaturityForm; Form_Execute; Form_Free]
  /\ value_of (ask_desired_maturity short_host)
              fresh_state
     = Return (Some "MMAT_LOCOPT", Some MMAT_LOCOPT, 4194304).
Proof.
  destruct (ask_desired_maturity_accepted
              short_host fresh_state)
    as (_ & _ & _ & He & text & mmat & Hnth & Hv).
  - reflexivity.
  - simpl. lia.
  - split; [exact He |].
    simpl in Hnth. injection Hnth as <- <-. exact Hv.
Defined.

(** ** The runs of [show_microcode] *)

Lemma AddLines_run (lines : list string) (s : state) :
  AddLines lines s = (Return tt, extend s (map viewer_AddLine lines)).
Proof.
  revert s. induction lines as [| line rest IH]; intros s; simpl.
  - unfold ret. now rewrite extend_nil.
  - unfold bind, call. rewrite IH. norm_state. reflexivity.
Qed.

Lemma microcode_viewer_Create_run (h : host) (title : string) (lines : list string)
    (s : state) :
  microcode_viewer_Create h title lines s
  = if viewer_create_ok h
    then (Return true,
          extend s (viewer_Create ("Microcode: " +:+ title) :: map viewer_AddLine lines))
    else (Return false, extend s [viewer_Create ("Microcode: " +:+ title)]).
Proof.
  unfold microcode_viewer_Create, bind, call, ret.
  destruct (viewer_create_ok h); cbn [negb].
  - rewrite AddLines_run. norm_state. reflexivity.
  - reflexivity.
Qed.

Lemma addr_fmt_eq (h : host) :
  (if inf_is_64bit h then py_fmt_0x 16 else py_fmt_0x 8) = addr_fmt h.
Proof. unfold addr_fmt. now destruct (inf_is_64bit h). Qed.

(** Finishes a case of [show_microcode_run]: the state is brought to the
    form [extend s evs] and the matching constructor is applied. *)
Ltac finish_run :=
  do 2 eexists; split;
  [ norm_state; reflexivity
  | solve [ econstructor; eauto using range_selected, range_function ] ].

(** The part of [show_microcode] after the range has been fixed. *)
Ltac run_from_range :=
  cbv beta iota;
  match goal with
  | |- context [is_code ?h (get_flags ?h ?sea)] =>
      destruct (is_code h (get_flags h sea)) eqn:Ecode; cbn [negb]; cbv beta iota;
      [ rewrite ask_desired_maturity_run;
        destruct (Z.eqb_spec (form_ok h) 1) as [Eok | Eok];
        [ destruct (py_getitem maturity_levels (form_mat_lvl_value h))
            as [[text mmat] | e] eqn:Eget; cbn [fst snd]; cbv beta iota;
          [ match goal with
            | |- context [gen_microcode h ?a ?b ?c ?d] =>
                destruct (gen_microcode h a b c d) as [[mba |] hf] eqn:Egen
            end;
            [ unfold mba_print_to, bind, call, ret;
              rewrite microcode_viewer_Create_run, feed_get_mc;
              destruct (viewer_create_ok h) eqn:Eview; cbn [negb app printer_t.get_mc
                printer_t.mc printer_t.init py_str]
            | ]
          | ]
        | ]
      | ]
  end;
  finish_run.

(** Every run of [show_microcode] is one of those listed by
    [show_microcode_outcome], and it only adds calls to the trace. *)
Lemma show_microcode_run (h : host) (s : state) :
  exists r evs,
    show_microcode h s = (r, extend s evs) /\ show_microcode_outcome h r evs.
Proof.
  unfold show_microcode, bind, call, ret.
  rewrite !addr_fmt_eq.
  destruct (range_selection h) as [[sel sea0] eea0] eqn:Esel.
  destruct (get_func h (screen_ea h)) as [pfn |] eqn:Epfn; destruct sel.
  - run_from_range.
  - run_from_range.
  - run_from_range.
  - finish_run.
Qed.

Lemma show_microcode_observed (h : host) (s : state) :
  show_microcode_outcome h (value_of (show_microcode h) s)
                           (events_of (show_microcode h) s)
  /\ snd (show_microcode h s) = extend s (events_of (show_microcode h) s).
Proof.
  destruct (show_microcode_run h s) as (r & evs & Hrun & Hout).
  destruct (events_of_run _ _ _ _ Hrun) as [Hv He].
  rewrite Hv, He. split; [exact Hout |]. now rewrite Hrun.
Qed.

Lemma chosen_range_functional (h : host) (sea eea sea' eea' : N) :
  chosen_range h sea eea -> chosen_range h sea' eea' -> sea = sea' /\ eea = eea'.
Proof.
  intros H1 H2. inversion H1; inversion H2; subst; split; congruence.
Qed.

Lemma chosen_range_exists (h : host) (sea eea : N) :
  chosen_range h sea eea ->
  fst (fst (range_selection h)) = true \/ get_func h (screen_ea h) <> None.
Proof.
  intros H. inversion H as [? ? E | ? ? ? E E']; subst.
  - left. now rewrite E.
  - right. congruence.
Qed.

(** Membership of a call in the calls of a run, decided by looking at
    the calls one by one. *)
Ltac in_calls H :=
  unfold code_calls, range_calls, dialog_calls, generator_call in H;
  repeat (rewrite in_app_iff in H || cbn [In app] in H);
  repeat match type of H with
         | _ \/ _ => destruct H as [H | H]
         | False => contradiction
         | In _ (map _ _) =>
             apply in_map_iff in H; destruct H as (? & H & _)
         end;
  try discriminate H.

(** None of the calls made before the dialog is a dialog or a generator
    call. *)
Lemma code_calls_early (h : host) (sea : N) :
  Forall (fun e => is_form_event e = false /\ is_gen_microcode e = false)
         (code_calls h sea).
Proof. unfold code_calls, range_calls. repeat constructor. Qed.

(** C10: when the address range has been chosen and the flags at its
    start are not code, [show_microcode] returns (False, "The selected
    range must start with an instruction") having made neither a dialog
    call nor a generator call; with no selection and no function under
    the cursor it returns (False, "Position cursor within a function or
    select range"). *)
Theorem show_microcode_rejects_early (h : host) (s : state) :
  (forall sea eea : N,
      chosen_range h sea eea ->
      is_code h (get_flags h sea) = false ->
      value_of (show_microcode h) s
      = Return (false, "The selected range must start with an instruction")
      /\ events_of (show_microcode h) s = code_calls h sea
      /\ Forall (fun e => is_form_event e = false /\ is_gen_microcode e = false)
                (events_of (show_microcode h) s))
  /\ (fst (fst (range_selection h)) = false ->
      get_func h (screen_ea h) = None ->
      value_of (show_microcode h) s
      = Return (false, "Position cursor within a function or select range")
      /\ events_of (show_microcode h) s = range_calls h).
Proof.
  destruct (show_microcode_observed h s) as [Hout _].
  split.
  - intros sea eea Hrange Hcode.
    inversion Hout as
        [ a b E1 E2 | sea1 eea1 R1 C1 | sea1 eea1 R1 C1 | sea1 eea1 e R1 C1
        | sea1 eea1 t m f R1 C1 | sea1 eea1 t m mb f R1 C1
        | sea1 eea1 t m mb f R1 C1 ];
      try (destruct (chosen_range_functional _ _ _ _ _ Hrange R1) as [<- <-]).
    + destruct (chosen_range_exists _ _ _ Hrange) as [Hs | Hf].
      * rewrite E1 in Hs. discriminate.
      * contradiction.
    + split; [reflexivity |]. split; [reflexivity | apply code_calls_early].
    + congruence.
    + congruence.
    + congruence.
    + congruence.
    + congruence.
  - intros Hsel Hfn.
    inversion Hout as
        [ a b E1 E2 | sea1 eea1 R1 C1 | sea1 eea1 R1 C1 | sea1 eea1 e R1 C1
        | sea1 eea1 t m f R1 C1 | sea1 eea1 t m mb f R1 C1
        | sea1 eea1 t m mb f R1 C1 ];
      try (destruct (chosen_range_exists _ _ _ R1) as [Hs | Hf]; congruence).
    split; reflexivity.
Qed.

(** The function starts with data. *)
Lemma show_microcode_rejects_early_witness :
  value_of (show_microcode data_host) fresh_state
  = Return (false, "The selected range must start with an instruction")
  /\ value_of (show_microcode nowhere_host) fresh_state
     = Return (false, "Position cursor within a function or select range").
Proof.
  split.
  - destruct (show_microcode_rejects_early data_host fresh_state) as [Hcode _].
    destruct (Hcode 4198400%N 4198500%N) as [Hv _].
    + apply (range_function data_host 0%N 0%N
               {| start_ea := 4198400; end_ea := 4198500 |}); reflexivity.
    + reflexivity.
    + exact Hv.
  - destruct (show_microcode_rejects_early nowhere_host fresh_state) as [_ Hnone].
    destruct Hnone as [Hv _]; [reflexivity | reflexivity | exact Hv].
Defined.

(** ** [is_compatible] and [create_mc_widget] *)

Lemma is_ida_version_run (h : host) (requested : string) (s : state) :
  exists r, is_ida_version h requested s = (r, extend s [kw_get_kernel_version]).
Proof.
  rewrite is_ida_version_unfold. cbv zeta.
  destruct (Nat.eqb _ 0); eexists; reflexivity.
Qed.

Lemma is_compatible_run (h : host) (s : state) :
  exists r evs,
    is_compatible h s = (r, extend s evs)
    /\ (evs = [kw_get_kernel_version]
        \/ evs = [kw_get_kernel_version; hr_init_hexrays_plugin]).
Proof.
  unfold is_compatible, bind.
  destruct (is_ida_version_run h "7.3" s) as [r ->].
  destruct r as [[|] | e].
  - unfold call. norm_state. do 2 eexists. split; [reflexivity | now right].
  - unfold ret. do 2 eexists. split; [reflexivity | now left].
  - do 2 eexists. split; [reflexivity | now left].
Qed.

Lemma is_compatible_observed (h : host) (s : state) :
  snd (is_compatible h s) = extend s (events_of (is_compatible h) s)
  /\ Forall (fun e => is_show_microcode_event e = false /\ is_output_event e = false)
            (events_of (is_compatible h) s).
Proof.
  destruct (is_compatible_run h s) as (r & evs & Hrun & Hevs).
  destruct (events_of_run _ _ _ _ Hrun) as [_ He]. rewrite He, Hrun.
  split; [reflexivity |].
  destruct Hevs as [-> | ->]; repeat constructor.
Qed.

Lemma create_mc_widget_run (h : host) (s : state) :
  create_mc_widget h s
  = match is_compatible h s with
    | (Return true, s1) =>
        match show_microcode h s1 with
        | (Return (success, message), s2) =>
            (Return success,
             log ((if success then kw_msg else kw_warning)
                    (genmc_wanted_name +:+ ": " +:+ message +:+ LF)) s2)
        | (Raise e, s2) => (Raise e, s2)
        end
    | (Return false, s1) =>
        (Return false,
         log (kw_msg (genmc_wanted_name +:+ ": Unsupported IDA / Hex-rays version" +:+ LF))
             s1)
    | (Raise e, s1) => (Raise e, s1)
    end.
Proof.
  unfold create_mc_widget, bind, call, ret.
  destruct (is_compatible h s) as [[[|] | e] s1]; cbn [negb]; try reflexivity.
  destruct (show_microcode h s1) as [[[success message] | e] s2]; reflexivity.
Qed.

(** The calls of an accepted run of [create_mc_widget]: those of the
    compatibility check, those of [show_microcode], and the report. *)
Lemma create_mc_widget_shown (h : host) (s s1 : state) (success : bool)
    (message : string) :
  is_compatible h s = (Return true, s1) ->
  value_of (show_microcode h) s1 = Return (success, message) ->
  value_of (create_mc_widget h) s = Return success
  /\ events_of (create_mc_widget h) s
     = events_of (is_compatible h) s ++ events_of (show_microcode h) s1
       ++ [(if success then kw_msg else kw_warning)
             (genmc_wanted_name +:+ ": " +:+ message +:+ LF)].
Proof.
  intros Hc Hv.
  destruct (is_compatible_observed h s) as [Hs1 _].
  destruct (show_microcode_observed h s1) as [_ Hs2].
  rewrite Hc in Hs1. cbn [snd] in Hs1.
  unfold value_of in Hv.
  apply events_of_run.
  rewrite create_mc_widget_run, Hc.
  destruct (show_microcode h s1) as [r s2] eqn:Hshow. cbn [fst snd] in *.
  subst r. rewrite Hs2, Hs1. norm_state. reflexivity.
Qed.

(** ** Hexadecimal formatting *)

Lemma append_assoc (a b c : string) : (a +:+ b) +:+ c = a +:+ (b +:+ c).
Proof.
  induction a as [| x a IH]; [reflexivity |].
  change (String x ((a +:+ b) +:+ c) = String x (a +:+ (b +:+ c))).
  now rewrite IH.
Qed.

Lemma length_append (a b : string) :
  String.length (a +:+ b) = (String.length a + String.length b)%nat.
Proof.
  induction a as [| x a IH]; [reflexivity |].
  change (S (String.length (a +:+ b)) = S (String.length a + String.length b)).
  now rewrite IH.
Qed.

Lemma hex_loop_acc (fuel : nat) (n : N) (acc : string) :
  hex_loop fuel n acc = hex_loop fuel n EmptyString +:+ acc.
Proof.
  revert n acc. induction fuel as [| fuel IH]; intros n acc; simpl.
  - reflexivity.
  - destruct (n =? 0)%N; [reflexivity |].
    rewrite (IH _ (String _ acc)), (IH _ (String _ EmptyString)).
    now rewrite append_assoc.
Qed.

Lemma hex_value_append (a b : string) (acc : N) :
  hex_value (a +:+ b) acc = hex_value b (hex_value a acc).
Proof. revert acc. induction a as [| x a IH]; intros acc; simpl; [reflexivity | apply IH]. Qed.

Lemma hex_digit_value_digit (d : N) :
  (d < 16)%N -> hex_digit_value (hex_digit d) = d.
Proof.
  intros Hd.
  assert (Hcases : (d = 0 \/ d = 1 \/ d = 2 \/ d = 3 \/ d = 4 \/ d = 5 \/ d = 6
                    \/ d = 7 \/ d = 8 \/ d = 9 \/ d = 10 \/ d = 11 \/ d = 12
                    \/ d = 13 \/ d = 14 \/ d = 15)%N) by lia.
  repeat (destruct Hcases as [-> | Hcases]); try subst d; reflexivity.
Qed.

Lemma hex_loop_value (fuel : nat) (n : N) :
  (n < 2 ^ N.of_nat fuel)%N -> hex_value (hex_loop fuel n EmptyString) 0 = n.
Proof.
  revert n. induction fuel as [| fuel IH]; intros n Hn.
  - simpl in *. lia.
  - cbn [hex_loop]. destruct (N.eqb_spec n 0) as [-> | Hnz]; [reflexivity |].
    rewrite hex_loop_acc, hex_value_append. cbn [hex_value].
    rewrite IH.
    + rewrite hex_digit_value_digit by (apply N.mod_lt; lia).
      pose proof (N.div_mod n 16). lia.
    + rewrite Nat2N.inj_succ, N.pow_succ_r' in Hn.
      apply N.Div0.div_lt_upper_bound. lia.
Qed.

Lemma hex_value_zeros (k : nat) (d : string) :
  hex_value (zeros k +:+ d) 0 = hex_value d 0.
Proof. induction k as [| k IH]; simpl; [reflexivity | exact IH]. Qed.

(** The digits printed for an address denote that address. *)
Lemma py_fmt_0x_value (width : nat) (n : N) :
  hex_value (py_fmt_0x width n) 0 = n.
Proof.
  unfold py_fmt_0x. rewrite hex_value_zeros. unfold py_hex.
  destruct (N.eqb_spec n 0) as [-> | Hnz]; [reflexivity |].
  apply hex_loop_value. rewrite N2Nat.id. apply N.size_gt.
Qed.

Lemma hex_loop_length (fuel : nat) (n : N) (w : nat) :
  (n < 16 ^ N.of_nat w)%N ->
  (String.length (hex_loop fuel n EmptyString) <= w)%nat.
Proof.
  revert n w. induction fuel as [| fuel IH]; intros n w Hn; cbn [hex_loop].
  - simpl. lia.
  - destruct (N.eqb_spec n 0) as [-> | Hnz]; [simpl; lia |].
    destruct w as [| w]; [simpl in Hn; lia |].
    rewrite hex_loop_acc, length_append. simpl String.length.
    rewrite Nat2N.inj_succ, N.pow_succ_r' in Hn.
    assert (Hq : (n / 16 < 16 ^ N.of_nat w)%N)
      by (apply N.Div0.div_lt_upper_bound; lia).
    specialize (IH _ _ Hq). lia.
Qed.

Lemma length_zeros (k : nat) : String.length (zeros k) = k.
Proof. induction k as [| k IH]; simpl; [reflexivity | now rewrite IH]. Qed.

(** An address below [16 ^ width] is printed with exactly [width] digits. *)
Lemma py_fmt_0x_length (width : nat) (n : N) :
  (0 < width)%nat -> (n < 16 ^ N.of_nat width)%N ->
  String.length (py_fmt_0x width n) = width.
Proof.
  intros Hw Hn. unfold py_fmt_0x. rewrite length_append, length_zeros.
  assert (Hd : (String.length (py_hex n) <= width)%nat).
  { unfold py_hex. destruct (N.eqb_spec n 0) as [-> | Hnz]; [simpl; lia |].
    now apply hex_loop_length. }
  lia.
Qed.

(** ** What the runs of [show_microcode] never do *)

Lemma Forall_map_AddLine (P : event -> Prop) (lines : list string) :
  (forall line, P (viewer_AddLine line)) -> Forall P (map viewer_AddLine lines).
Proof.
  intros HP. induction lines as [| line rest IH]; simpl; constructor; auto.
Qed.

(** Closes a goal [Forall P calls] where [calls] is one of the call lists
    of [show_microcode_outcome] and [P] is decided by computation. *)
Ltac forall_calls :=
  unfold code_calls, range_calls, dialog_calls, generator_call;
  repeat (apply Forall_app; split);
  try (apply Forall_map_AddLine; intros; reflexivity);
  repeat constructor.

(** [show_microcode] itself writes nothing to the output channels. *)
Lemma show_microcode_outcome_silent (h : host) r evs :
  show_microcode_outcome h r evs -> Forall (fun e => is_output_event e = false) evs.
Proof. intros Hout. inversion Hout; subst; forall_calls. Qed.

(** A run in which the generator was called and returned no microcode. *)
Lemma show_microcode_outcome_no_mba (h : host) r evs :
  show_microcode_outcome h r evs ->
  forall sea eea flags mmat hf,
    In (hr_gen_microcode sea eea flags mmat) evs ->
    gen_microcode h sea eea flags mmat = (None, hf) ->
    r = Return (false, "0x" +:+ addr_fmt h (errea hf) +:+ ": " +:+ str hf)
    /\ exists calls,
         evs = calls ++ [hr_gen_microcode sea eea flags mmat]
         /\ Forall (fun e => is_gen_microcode e = false) calls.
Proof.
  intros Hout. destruct Hout; intros sea' eea' flags' mmat' hf' Hin Hgen;
    in_calls Hin; injection Hin as <- <- <- <-; try congruence.
  split; [congruence |].
  exists (code_calls h sea ++ dialog_calls). split.
  - now rewrite <- app_assoc.
  - forall_calls.
Qed.

(** A run in which the dialog was shown and not accepted. *)
Lemma show_microcode_outcome_cancelled (h : host) r evs :
  show_microcode_outcome h r evs ->
  In Form_Execute evs ->
  form_ok h <> 1 ->
  r = Return (true, "Cancelled")
  /\ Forall (fun e => is_gen_microcode e = false) evs.
Proof.
  intros Hout. destruct Hout; intros Hin Hok; in_calls Hin; try contradiction.
  split; [reflexivity | forall_calls].
Qed.

(** A run in which the dialog hands back an entry of the table. *)
Lemma show_microcode_outcome_returns (h : host) r evs :
  show_microcode_outcome h r evs ->
  (form_ok h = 1 ->
   exists entry, py_getitem maturity_levels (form_mat_lvl_value h) = Return entry) ->
  exists success message, r = Return (success, message).
Proof.
  intros Hout Hidx. destruct Hout; try (do 2 eexists; reflexivity).
  destruct Hidx as [entry Hentry]; [assumption | congruence].
Qed.

Lemma py_getitem_maturity_levels_valid (i : Z) :
  -8 <= i < 8 -> exists entry, py_getitem maturity_levels i = Return entry.
Proof.
  intros Hi.
  assert (Hcases : i = -8 \/ i = -7 \/ i = -6 \/ i = -5 \/ i = -4 \/ i = -3
                   \/ i = -2 \/ i = -1 \/ i = 0 \/ i = 1 \/ i = 2 \/ i = 3
                   \/ i = 4 \/ i = 5 \/ i = 6 \/ i = 7) by lia.
  repeat (destruct Hcases as [-> | Hcases]); try subst i; eexists; reflexivity.
Qed.

(** ** Generator failure *)

(** C5: whenever, in a run of [show_microcode], the generator is called
    and hands back no microcode object, the run returns False with the
    message "0x<address>: <text>", where <address> is the failure
    object's [errea] printed by [%016x] on a 64-bit database and by [%08x]
    otherwise (so with exactly 16, respectively 8, digits when it fits,
    and always denoting [errea]) and <text> is the failure object's [str];
    the generator call is the only one and the last call of the run. *)
Theorem show_microcode_generator_failure (h : host) (s : state) (sea eea : N)
    (flags : Z) (mmat : option mba_maturity_t) (hf : hexrays_failure_t) :
  In (hr_gen_microcode sea eea flags mmat) (events_of (show_microcode h) s) ->
  gen_microcode h sea eea flags mmat = (None, hf) ->
  let width := if inf_is_64bit h then 16%nat else 8%nat in
  value_of (show_microcode h) s
  = Return (false, "0x" +:+ py_fmt_0x width (errea hf) +:+ ": " +:+ str hf)
  /\ (exists calls,
        events_of (show_microcode h) s
        = calls ++ [hr_gen_microcode sea eea flags mmat]
        /\ Forall (fun e => is_gen_microcode e = false) calls)
  /\ hex_value (py_fmt_0x width (errea hf)) 0 = errea hf
  /\ ((errea hf < 16 ^ N.of_nat width)%N ->
      String.length (py_fmt_0x width (errea hf)) = width).
Proof.
  intros Hin Hgen width.
  destruct (show_microcode_observed h s) as [Hout _].
  destruct (show_microcode_outcome_no_mba h _ _ Hout _ _ _ _ _ Hin Hgen)
    as [Hv Hcalls].
  split; [exact Hv |]. split; [exact Hcalls |].
  split; [apply py_fmt_0x_value |].
  intros Hfit. apply py_fmt_0x_length; [| exact Hfit].
  subst width. destruct (inf_is_64bit h); lia.
Qed.

(** The generator fails at [0x401002] on a 64-bit database. *)
Lemma show_microcode_generator_failure_witness :
  value_of (show_microcode failing_host) fresh_state
  = Return (false, "0x0000000000401002: positive sp value has been found").
Proof.
  apply (show_microcode_generator_failure failing_host fresh_state
           4198400%N 4198500%N 16 (Some MMAT_LOCOPT)
           {| errea := 4198402; str := "positive sp value has been found" |}).
  - vm_compute. tauto.
  - reflexivity.
Defined.

(** ** Cancelling *)

(** C9: when the maturity dialog is shown and not accepted,
    [show_microcode] returns (True, "Cancelled") and makes no generator
    call; [create_mc_widget] then returns True and its last call is
    [kw.msg("genmc: Cancelled\n")], the info channel. *)
Theorem show_microcode_cancelled (h : host) :
  form_ok h <> 1 ->
  (forall s : state,
      In Form_Execute (events_of (show_microcode h) s) ->
      value_of (show_microcode h) s = Return (true, "Cancelled")
      /\ Forall (fun e => is_gen_microcode e = false)
                (events_of (show_microcode h) s))
  /\ (forall s s1 : state,
        is_compatible h s = (Return true, s1) ->
        In Form_Execute (events_of (show_microcode h) s1) ->
        value_of (create_mc_widget h) s = Return true
        /\ events_of (create_mc_widget h) s
           = events_of (is_compatible h) s ++ events_of (show_microcode h) s1
             ++ [kw_msg ("genmc: Cancelled" +:+ LF)]
        /\ Forall (fun e => is_gen_microcode e = false)
                  (events_of (create_mc_widget h) s)).
Proof.
  intros Hok.
  assert (Hshow : forall s : state,
      In Form_Execute (events_of (show_microcode h) s) ->
      value_of (show_microcode h) s = Return (true, "Cancelled")
      /\ Forall (fun e => is_gen_microcode e = false)
                (events_of (show_microcode h) s)).
  { intros s Hin. destruct (show_microcode_observed h s) as [Hout _].
    exact (show_microcode_outcome_cancelled h _ _ Hout Hin Hok). }
  split; [exact Hshow |].
  intros s s1 Hc Hin. destruct (Hshow s1 Hin) as [Hv Hnogen].
  destruct (create_mc_widget_shown h s s1 true "Cancelled" Hc Hv) as [Hr He].
  split; [exact Hr |]. split; [exact He |].
  rewrite He. apply Forall_app. split.
  - destruct (is_compatible_observed h s) as [_ HF].
    eapply List.Forall_impl; [| exact HF]. intros e [He1 _].
    destruct e; try reflexivity; discriminate.
  - apply Forall_app. split; [exact Hnogen | repeat constructor].
Qed.

(** The dialog is closed with Cancel. *)
Lemma show_microcode_cancelled_witness :
  value_of (show_microcode cancel_host) fresh_state = Return (true, "Cancelled")
  /\ value_of (create_mc_widget cancel_host) fresh_state = Return true.
Proof.
  assert (Hok : form_ok cancel_host <> 1) by (simpl; lia).
  destruct (show_microcode_cancelled cancel_host Hok) as [Hshow Hwidget].
  split.
  - apply Hshow. vm_compute. tauto.
  - eapply Hwidget.
    + reflexivity.
    + vm_compute. tauto.
Defined.

(** ** Reporting *)

(** C3: provided the index the dialog hands back is a valid index of the
    table of maturity levels, [show_microcode] always returns a pair of a
    success flag and a message; [create_mc_widget] then returns the flag,
    and its last call reports "genmc: <message>" through [kw.msg] if the
    flag is True and through [kw.warning] if it is False, no earlier call of
    the run going to either channel. *)
Theorem create_mc_widget_reports (h : host) :
  (form_ok h = 1 -> -8 <= form_mat_lvl_value h < 8) ->
  (forall s : state,
      exists (success : bool) (message : string),
        value_of (show_microcode h) s = Return (success, message))
  /\ (forall s s1 : state,
        is_compatible h s = (Return true, s1) ->
        exists (success : bool) (message : string),
          value_of (show_microcode h) s1 = Return (success, message)
          /\ value_of (create_mc_widget h) s = Return success
          /\ events_of (create_mc_widget h) s
             = events_of (is_compatible h) s ++ events_of (show_microcode h) s1
               ++ [(if success then kw_msg else kw_warning)
                     ("genmc: " +:+ message +:+ LF)]
          /\ Forall (fun e => is_output_event e = false)
                    (events_of (is_compatible h) s
                     ++ events_of (show_microcode h) s1)).
Proof.
  intros Hidx.
  assert (Hshow : forall s : state,
      exists (success : bool) (message : string),
        value_of (show_microcode h) s = Return (success, message)).
  { intros s. destruct (show_microcode_observed h s) as [Hout _].
    apply (show_microcode_outcome_returns h _ _ Hout).
    intros Hok. apply py_getitem_maturity_levels_valid. auto. }
  split; [exact Hshow |].
  intros s s1 Hc. destruct (Hshow s1) as (success & message & Hv).
  exists success, message.
  destruct (create_mc_widget_shown h s s1 success message Hc Hv) as [Hr He].
  split; [exact Hv |]. split; [exact Hr |]. split; [exact He |].
  apply Forall_app. split.
  - destruct (is_compatible_observed h s) as [_ HF].
    eapply List.Forall_impl; [| exact HF]. intros e [_ He2]. exact He2.
  - destruct (show_microcode_observed h s1) as [Hout _].
    exact (show_microcode_outcome_silent h _ _ Hout).
Qed.

(** A run that shows microcode reports on the info channel, a run in
    which the generator fails on the warning channel. *)
Lemma create_mc_widget_reports_witness :
  (exists calls,
      events_of (create_mc_widget script_host) fresh_state
      = calls ++ [kw_msg ("genmc: Successfully generated microcode for "
                          +:+ "0x0000000000401000..0x0000000000401064" +:+ LF)])
  /\ (exists calls,
        events_of (create_mc_widget failing_host) fresh_state
        = calls ++ [kw_warning ("genmc: 0x0000000000401002: "
                                +:+ "positive sp value has been found" +:+ LF)]).
Proof.
  split.
  - destruct (create_mc_widget_reports script_host) as [_ Hwidget];
      [simpl; lia |].
    destruct (Hwidget fresh_state (snd (is_compatible script_host fresh_state)))
      as (success & message & Hv & _ & He & _); [reflexivity |].
    vm_compute in Hv. injection Hv as <- <-.
    eexists. rewrite He, app_assoc. reflexivity.
  - destruct (create_mc_widget_reports failing_host) as [_ Hwidget];
      [simpl; lia |].
    destruct (Hwidget fresh_state (snd (is_compatible failing_host fresh_state)))
      as (success & message & Hv & _ & He & _); [reflexivity |].
    vm_compute in Hv. injection Hv as <- <-.
    eexists. rewrite He, app_assoc. reflexivity.
Defined.

(** ** Version gate *)

(** C4: when the compatibility check answers False, [create_mc_widget]
    reports "genmc: Unsupported IDA / Hex-rays version" through [kw.msg]
    and returns False, having made none of the calls of [show_microcode]
    (no range query, no dialog, no generator call), and [genmc.init]
    returns PLUGIN_SKIP, not PLUGIN_OK. *)
Theorem incompatible_short_circuits (h : host) (s : state) :
  value_of (is_compatible h) s = Return false ->
  value_of (create_mc_widget h) s = Return false
  /\ events_of (create_mc_widget h) s
     = events_of (is_compatible h) s
       ++ [kw_msg ("genmc: Unsupported IDA / Hex-rays version" +:+ LF)]
  /\ Forall (fun e => is_show_microcode_event e = false)
            (events_of (create_mc_widget h) s)
  /\ value_of (genmc_init h) s = Return PLUGIN_SKIP
  /\ value_of (genmc_init h) s <> Return PLUGIN_OK.
Proof.
  intros Hc. unfold value_of in Hc.
  destruct (is_compatible_observed h s) as [Hs1 HF].
  assert (Hrun : create_mc_widget h s
                 = (Return false,
                    extend s (events_of (is_compatible h) s
                              ++ [kw_msg ("genmc: Unsupported IDA / Hex-rays version"
                                          +:+ LF)]))).
  { rewrite create_mc_widget_run.
    destruct (is_compatible h s) as [r s1] eqn:Hrun. cbn [fst snd] in *.
    subst r s1. norm_state. reflexivity. }
  destruct (events_of_run _ _ _ _ Hrun) as [Hv He].
  assert (Hinit : value_of (genmc_init h) s = Return PLUGIN_SKIP).
  { unfold value_of, genmc_init, bind, ret.
    destruct (is_compatible h s) as [r s1]. cbn [fst] in Hc. now subst r. }
  split; [exact Hv |]. split; [exact He |]. split.
  - rewrite He. apply Forall_app. split.
    + eapply List.Forall_impl; [| exact HF]. intros e [He1 _]. exact He1.
    + repeat constructor.
  - split; [exact Hinit |]. rewrite Hinit. discriminate.
Qed.

(** A kernel that reports 7.2 fails the check. *)
Lemma incompatible_short_circuits_witness :
  value_of (create_mc_widget kernel_7_2_host) fresh_state = Return false
  /\ events_of (create_mc_widget kernel_7_2_host) fresh_state
     = [kw_get_kernel_version;
        kw_msg ("genmc: Unsupported IDA / Hex-rays version" +:+ LF)]
  /\ value_of (genmc_init kernel_7_2_host) fresh_state = Return PLUGIN_SKIP.
Proof.
  destruct (incompatible_short_circuits kernel_7_2_host fresh_state)
    as (Hv & He & _ & Hinit & _); [reflexivity |].
  split; [exact Hv |]. split; [exact He | exact Hinit].
Defined.

(** ** [install_plugin] *)

Lemma get_target_dir_run (h : host) (s : state) :
  get_target_dir h s = (Return (target_path h), extend s [ida_diskio_get_user_idadir]).
Proof. reflexivity. Qed.

(** [install_plugin] up to the directory check, run as a script with the
    plugin not installed. *)
Lemma install_plugin_with_start (h : host) (makedirs : string -> M unit) (s : state) :
  is_plugin h = false ->
  fs_files s !! target_path h = None ->
  install_plugin_with h makedirs s
  = (created <-
       (if negb (bool_decide (plugin_dir h ∈ fs_dirs s)
                 || bool_decide (is_Some (fs_files s !! plugin_dir h)))
        then
          try_except
            (makedirs (plugin_dir h) ;; ret true)
            (fun e =>
               match e with
               | OSError errno =>
                   if negb (errno =? errno_EEXIST h) then
                     call (kw_msg ("failed (mkdir)!" +:+ LF)) tt ;;
                     ret false
                   else ret true
               | _ => raise e
               end)
        else ret true) ;;
     if negb created then ret false
     else
       copied <-
         try_except
           (shutil_copy (copy_fault h) (SELF h) (target_path h) ;; ret true)
           (fun _ => call (kw_msg ("failed (copy)!" +:+ LF)) tt ;; ret false) ;;
       if negb copied then ret false
       else
         call (kw_msg ("done!" +:+ LF)) tt ;;
         ret true)%py
      (extend s (install_calls h)).
Proof.
  intros Hplugin Hfile.
  unfold install_plugin_with, is_installed, get_target_dir, os_path_isfile,
    os_path_exists, bind, call, ret, log, extend, install_calls,
    copying_message, plugin_dir, target_path in *.
  rewrite Hplugin. cbn [fst snd fs_files fs_dirs trace negb].
  rewrite Hfile.
  rewrite (bool_decide_eq_false_2 _ is_Some_None).
  cbn [fst snd fs_files fs_dirs trace negb].
  rewrite <- !app_assoc. cbn [app].
  reflexivity.
Qed.

Lemma plugin_dir_absent (h : host) (s : state) :
  plugin_dir h ∉ fs_dirs s ->
  fs_files s !! plugin_dir h = None ->
  negb (bool_decide (plugin_dir h ∈ fs_dirs s)
        || bool_decide (is_Some (fs_files s !! plugin_dir h))) = true.
Proof.
  intros Hdir Hfile. rewrite Hfile.
  rewrite (bool_decide_eq_false_2 _ Hdir), (bool_decide_eq_false_2 _ is_Some_None).
  reflexivity.
Qed.

Lemma plugin_dir_present (h : host) (s : state) :
  plugin_dir h ∈ fs_dirs s ->
  negb (bool_decide (plugin_dir h ∈ fs_dirs s)
        || bool_decide (is_Some (fs_files s !! plugin_dir h))) = false.
Proof. intros Hdir. now rewrite (bool_decide_eq_true_2 _ Hdir). Qed.

(** [install_plugin] run as a script, the plugin directory missing: the
    attribute error of [os.path.makedirs] leaves the function. *)
Lemma install_plugin_missing_directory_run (h : host) (s : state) :
  is_plugin h = false ->
  plugin_dir h ∉ fs_dirs s ->
  fs_files s !! plugin_dir h = None ->
  fs_files s !! target_path h = None ->
  install_plugin h s
  = (Raise (AttributeError "makedirs"), extend s (install_calls h)).
Proof.
  intros Hplugin Hdir Hnofile Hfile.
  unfold install_plugin. rewrite install_plugin_with_start by assumption.
  rewrite plugin_dir_absent by assumption.
  reflexivity.
Qed.

Lemma prefix_refl (data : string) : String.prefix data data = true.
Proof.
  induction data as [| c data IH]; [reflexivity |].
  cbn [String.prefix]. now destruct (ascii_dec c c).
Qed.

Lemma prefix_substring (n : nat) (data : string) :
  String.prefix (String.substring 0 n data) data = true.
Proof.
  revert n. induction data as [| c data IH]; intros [| n]; try reflexivity.
  cbn [String.substring String.prefix].
  destruct (ascii_dec c c); [apply IH | contradiction].
Qed.

(** The ways [shutil.copy] can end: an exception before the target is
    opened, with nothing changed; the whole contents at the target; or an
    exception after the target was opened, with a prefix of the contents
    at the target.  [dst'] is the path written to. *)
Lemma shutil_copy_cases (fault : option (exn * copy_stage)) (src dst : string)
    (s : state) :
  let dst' :=
    if bool_decide (dst ∈ fs_dirs s)
    then os_path_join dst (os_path_basename src) else dst in
  (exists e, shutil_copy fault src dst s = (Raise e, s))
  \/ (exists data,
        fs_files s !! src = Some data
        /\ shutil_copy fault src dst s
           = (Return tt,
              {| fs_dirs := fs_dirs s;
                 fs_files := <[dst' := data]> (fs_files s);
                 trace := trace s |}))
  \/ (exists e data text,
        fs_files s !! src = Some data
        /\ String.prefix text data = true
        /\ shutil_copy fault src dst s
           = (Raise e,
              {| fs_dirs := fs_dirs s;
                 fs_files := <[dst' := text]> (fs_files s);
                 trace := trace s |})).
Proof.
  intros dst'. unfold shutil_copy. fold dst'.
  destruct (fs_files s !! src) as [data |]; [| left; eexists; reflexivity].
  destruct (String.eqb src dst'); [left; eexists; reflexivity |].
  destruct fault as [[e [| n |]] |];
    try (left; eexists; reflexivity);
    (destruct (bool_decide (dst' ∈ fs_dirs s)); [left; eexists; reflexivity |]);
    (destruct (bool_decide (os_path_dirname dst' ∈ fs_dirs s)); cbn [negb];
     [| left; eexists; reflexivity]).
  - right. right. exists e, data, (String.substring 0 n data).
    split; [reflexivity |]. split; [apply prefix_substring | reflexivity].
  - right. right. exists e, data, data.
    split; [reflexivity |]. split; [apply prefix_refl | reflexivity].
  - right. left. exists data. split; reflexivity.
Qed.

(** However it ends, [shutil.copy] makes no directory and no call into
    the host. *)
Lemma shutil_copy_frame (fault : option (exn * copy_stage)) (src dst : string)
    (s : state) :
  fs_dirs (snd (shutil_copy fault src dst s)) = fs_dirs s
  /\ trace (snd (shutil_copy fault src dst s)) = trace s.
Proof.
  destruct (shutil_copy_cases fault src dst s)
    as [[e ->] | [(data & _ & ->) | (e & data & text & _ & _ & ->)]];
    split; reflexivity.
Qed.

(** C1 (as the code behaves): run as a script with the user plugin
    directory missing, [install_plugin] neither creates the directory nor
    copies the file: the reference [os.path.makedirs] raises
    [AttributeError], which leaves [install_plugin] after the "Copying
    script" message with the file system unchanged. *)
Theorem install_plugin_missing_directory (h : host) (s : state) :
  is_plugin h = false ->
  plugin_dir h ∉ fs_dirs s ->
  fs_files s !! plugin_dir h = None ->
  fs_files s !! target_path h = None ->
  value_of (install_plugin h) s = Raise (AttributeError "makedirs")
  /\ events_of (install_plugin h) s = install_calls h
  /\ fs_dirs (snd (install_plugin h s)) = fs_dirs s
  /\ fs_files (snd (install_plugin h s)) = fs_files s.
Proof.
  intros Hplugin Hdir Hnofile Hfile.
  pose proof (install_plugin_missing_directory_run h s Hplugin Hdir Hnofile Hfile)
    as Hrun.
  destruct (events_of_run _ _ _ _ Hrun) as [Hv He].
  rewrite Hrun. repeat split; assumption || reflexivity.
Qed.

(** The script run from a download directory, [~/.idapro/plugins] missing. *)
Lemma install_plugin_missing_directory_witness :
  value_of (install_plugin script_host) fresh_state = Raise (AttributeError "makedirs")
  /\ fs_dirs (snd (install_plugin script_host fresh_state)) = fs_dirs fresh_state
  /\ fs_files (snd (install_plugin script_host fresh_state)) = fs_files fresh_state.
Proof.
  destruct (install_plugin_missing_directory script_host fresh_state)
    as (Hv & _ & Hdirs & Hfiles).
  - reflexivity.
  - apply (bool_decide_eq_false_1 (plugin_dir script_host ∈ fs_dirs fresh_state)).
    vm_compute. reflexivity.
  - vm_compute. reflexivity.
  - vm_compute. reflexivity.
  - split; [exact Hv |]. split; [exact Hdirs | exact Hfiles].
Defined.

(** With [os.makedirs] in the place of [os.path.makedirs] the same run
    creates the directory, copies the script and returns True. *)
Lemma install_plugin_with_os_makedirs_example :
  let run := install_plugin_with script_host
               (os_makedirs (mkdir_fault script_host) (errno_EEXIST script_host))
               fresh_state in
  fst run = Return true
  /\ bool_decide ("/home/u/.idapro/plugins" ∈ fs_dirs (snd run)) = true
  /\ fs_files (snd run) !! "/home/u/.idapro/plugins/genmc.py" = Some "# genmc"
  /\ trace (snd run)
     = install_calls script_host ++ [kw_msg ("done!" +:+ LF)].
Proof. vm_compute. repeat split; reflexivity. Qed.

(** The handler around the directory creation, for any function put in the
    place of [os.path.makedirs]: an [OSError] other than [EEXIST] is
    reported and answered with False, [EEXIST] is passed over in silence
    and the copy goes ahead, any other exception leaves [install_plugin]. *)
Lemma install_plugin_with_mkdir_handler (h : host) (makedirs : string -> M unit)
    (s : state) (e : exn) :
  is_plugin h = false ->
  plugin_dir h ∉ fs_dirs s ->
  fs_files s !! plugin_dir h = None ->
  fs_files s !! target_path h = None ->
  makedirs (plugin_dir h) (extend s (install_calls h))
  = (Raise e, extend s (install_calls h)) ->
  match e with
  | OSError errno =>
      if errno =? errno_EEXIST h
      then install_plugin_with h makedirs s
           = install_plugin_with h (fun _ => ret tt) s
      else install_plugin_with h makedirs s
           = (Return false,
              extend s (install_calls h ++ [kw_msg ("failed (mkdir)!" +:+ LF)]))
  | _ =>
      install_plugin_with h makedirs s = (Raise e, extend s (install_calls h))
  end.
Proof.
  intros Hplugin Hdir Hnofile Hfile Hmk.
  assert (Hstart : install_plugin_with h makedirs s
                   = install_plugin_with h makedirs s) by reflexivity.
  rewrite install_plugin_with_start in Hstart at 2 by assumption.
  rewrite plugin_dir_absent in Hstart by assumption.
  unfold bind at 1 in Hstart. unfold try_except, bind at 1 in Hstart.
  rewrite Hmk in Hstart.
  destruct e as [errno | | | | |]; try exact Hstart.
  destruct (errno =? errno_EEXIST h); cbn [negb] in Hstart.
  - rewrite Hstart.
    rewrite install_plugin_with_start by assumption.
    rewrite plugin_dir_absent by assumption.
    reflexivity.
  - rewrite Hstart. unfold bind, call, ret. norm_state. reflexivity.
Qed.

(** C2 (as the code behaves): run as a script with the plugin not yet
    installed, an exception of the file copy is caught, reported with
    "failed (copy)!" and answered with False; nothing is retried or
    undone, the files being left as the failed copy left them.  But when
    the plugin directory is missing, the failure of the directory creation
    is not caught: [AttributeError] leaves [install_plugin] and no
    "failed (mkdir)!" message is written. *)
Theorem install_plugin_failures (h : host) (s : state) :
  is_plugin h = false ->
  fs_files s !! target_path h = None ->
  (plugin_dir h ∈ fs_dirs s ->
   forall e : exn,
     value_of (shutil_copy (copy_fault h) (SELF h) (target_path h))
              (extend s (install_calls h)) = Raise e ->
     value_of (install_plugin h) s = Return false
     /\ events_of (install_plugin h) s
        = install_calls h ++ [kw_msg ("failed (copy)!" +:+ LF)]
     /\ fs_dirs (snd (install_plugin h s)) = fs_dirs s
     /\ fs_files (snd (install_plugin h s))
        = fs_files (snd (shutil_copy (copy_fault h) (SELF h) (target_path h)
                           (extend s (install_calls h)))))
  /\ (plugin_dir h ∉ fs_dirs s ->
      fs_files s !! plugin_dir h = None ->
      value_of (install_plugin h) s = Raise (AttributeError "makedirs")
      /\ Forall (fun c => is_output_event c = true -> c = kw_msg (copying_message h))
                (events_of (install_plugin h) s)).
Proof.
  intros Hplugin Hfile. split.
  - intros Hdir e Hcopy. unfold value_of in Hcopy.
    destruct (shutil_copy_frame (copy_fault h) (SELF h) (target_path h)
                (extend s (install_calls h))) as [Hdirs Htrace].
    assert (Hrun : install_plugin h s
                   = (Return false,
                      log (kw_msg ("failed (copy)!" +:+ LF))
                          (snd (shutil_copy (copy_fault h) (SELF h) (target_path h)
                                  (extend s (install_calls h)))))).
    { unfold install_plugin. rewrite install_plugin_with_start by assumption.
      rewrite plugin_dir_present by assumption.
      unfold bind at 1. unfold ret at 1. cbn [negb].
      unfold bind at 1. unfold try_except, bind at 1.
      destruct (shutil_copy (copy_fault h) (SELF h) (target_path h)
                  (extend s (install_calls h))) as [r sc].
      cbn [fst snd] in *. subst r. reflexivity. }
    unfold value_of, events_of. rewrite Hrun.
    cbn [fst snd log fs_dirs fs_files trace].
    rewrite Hdirs, Htrace. cbn [extend fs_dirs trace].
    repeat split; try reflexivity.
    rewrite <- app_assoc, skipn_app, skipn_all, Nat.sub_diag. reflexivity.
  - intros Hdir Hnofile.
    pose proof (install_plugin_missing_directory_run h s Hplugin Hdir Hnofile Hfile)
      as Hrun.
    destruct (events_of_run _ _ _ _ Hrun) as [Hv He].
    split; [exact Hv |].
    rewrite He. unfold install_calls.
    repeat constructor; discriminate.
Qed.

(** With [~/.idapro/plugins] in place and the disk full after three
    characters, the copy fails, is reported, and what was written stays;
    with the directory missing the attribute error gets out. *)
Lemma install_plugin_failures_witness :
  (value_of (install_plugin disk_full_host) plugins_state = Return false
   /\ events_of (install_plugin disk_full_host) plugins_state
      = install_calls disk_full_host ++ [kw_msg ("failed (copy)!" +:+ LF)]
   /\ fs_files (snd (install_plugin disk_full_host plugins_state))
        !! "/home/u/.idapro/plugins/genmc.py" = Some "# g")
  /\ value_of (install_plugin script_host) fresh_state
     = Raise (AttributeError "makedirs").
Proof.
  split.
  - destruct (install_plugin_failures disk_full_host plugins_state) as [Hcopy _];
      [reflexivity | vm_compute; reflexivity |].
    destruct (Hcopy) with (e := IOError 28) as (Hv & He & _ & Hfiles).
    + apply (bool_decide_eq_true_1
               (plugin_dir disk_full_host ∈ fs_dirs plugins_state)).
      vm_compute. reflexivity.
    + vm_compute. reflexivity.
    + split; [exact Hv |]. split; [exact He |].
      rewrite Hfiles. vm_compute. reflexivity.
  - destruct (install_plugin_failures script_host fresh_state) as [_ Hmkdir];
      [reflexivity | vm_compute; reflexivity |].
    destruct Hmkdir as [Hraise _].
    + apply (bool_decide_eq_false_1 (plugin_dir script_host ∈ fs_dirs fresh_state)).
      vm_compute. reflexivity.
    + vm_compute. reflexivity.
    + exact Hraise.
Defined.

(* ------------------------------------------------------------------ *)
(** * Further properties of the script *)

(** ** The installer and the file system *)







(** X3: run as a script over an installed plugin, [install_plugin] asks
    "File exists. Replace?" once, with No as the default; on any answer
    but Yes it returns False at once: no "Copying" message, no copy, the
    file system as it was. *)
Theorem install_plugin_declined (h : host) (s : state) :
  is_plugin h = false ->
  is_Some (fs_files s !! target_path h) ->
  ask_yn_answer h <> ASKBTN_YES ->
  value_of (install_plugin h) s = Return false
  /\ events_of (install_plugin h) s
     = [ida_diskio_get_user_idadir; kw_ask_yn ASKBTN_NO "File exists. Replace?"]
  /\ fs_dirs (snd (install_plugin h s)) = fs_dirs s
  /\ fs_files (snd (install_plugin h s)) = fs_files s.
Proof.
  intros Hplugin Hfile Hno.
  assert (Hrun : install_plugin h s
                 = (Return false,
                    extend s [ida_diskio_get_user_idadir;
                              kw_ask_yn ASKBTN_NO "File exists. Replace?"])).
  { unfold install_plugin, install_plugin_with, is_installed, get_target_dir,
      os_path_isfile, bind, call, ret, log, extend, target_path in *.
    rewrite Hplugin. cbn [fst snd fs_files fs_dirs trace negb].
    rewrite (bool_decide_eq_true_2 _ Hfile).
    cbn [fst snd fs_files fs_dirs trace negb].
    destruct (ask_yn_answer h); try contradiction;
      cbn [askbtn_eqb negb fs_files fs_dirs trace];
      rewrite <- !app_assoc; reflexivity. }
  destruct (events_of_run _ _ _ _ Hrun) as [Hv He].
  rewrite Hrun. repeat split; assumption || reflexivity.
Qed.

(** The user answers No over an installed plugin. *)
Lemma install_plugin_declined_witness :
  value_of (install_plugin declining_host) installed_state = Return false
  /\ fs_files (snd (install_plugin declining_host installed_state))
     = fs_files installed_state.
Proof.
  destruct (install_plugin_declined declining_host installed_state)
    as (Hv & _ & _ & Hfiles).
  - reflexivity.
  - apply (bool_decide_eq_true_1
             (is_Some (fs_files installed_state !! target_path declining_host))).
    vm_compute. reflexivity.
  - discriminate.
  - split; [exact Hv | exact Hfiles].
Defined.

(** ** More on the version check *)

(** The loop over the indices [a, a + n): it answers False exactly when
    some component is smaller than requested and all components before it
    passed. *)
Lemma is_ida_version_loop_false (kv rv : list string) (n a : nat) (s : state) :
  (a + n <= length kv)%nat -> (a + n <= length rv)%nat ->
  (fst (is_ida_version_loop kv rv (seq a n) s) = Return false
   <-> exists i : nat,
         (a <= i < a + n)%nat
         /\ (forall j : nat, (a <= j < i)%nat ->
               exists k r : Z,
                 py_int (nth j kv EmptyString) = Return k
                 /\ py_int (nth j rv EmptyString) = Return r
                 /\ r <= k)
         /\ exists k r : Z,
              py_int (nth i kv EmptyString) = Return k
              /\ py_int (nth i rv EmptyString) = Return r
              /\ k < r).
Proof.
  revert a. induction n as [| n IH]; intros a Hk Hr.
  - simpl. split; [discriminate | intros (i & Hi & _); lia].
  - cbn [seq]. rewrite is_ida_version_loop_step by lia.
    specialize (IH (S a) ltac:(lia) ltac:(lia)).
    destruct (py_int (nth a kv EmptyString)) as [k | e] eqn:Ek.
    + destruct (py_int (nth a rv EmptyString)) as [r | e] eqn:Er.
      * destruct (Z.ltb_spec k r) as [Hlt | Hge].
        -- split; [| reflexivity]. intros _. exists a.
           split; [lia |]. split; [intros j Hj; lia |]. exists k, r. auto.
        -- rewrite IH. split.
           ++ intros (i & Hi & Hbefore & Hbad). exists i.
              split; [lia |]. split; [| exact Hbad].
              intros j Hj. destruct (Nat.eq_dec j a) as [-> | Hne].
              ** exists k, r. auto.
              ** apply Hbefore. lia.
           ++ intros (i & Hi & Hbefore & k' & r' & E1 & E2 & Hlt).
              destruct (Nat.eq_dec i a) as [-> | Hne];
                [assert (k' = k) by congruence; assert (r' = r) by congruence; lia |].
              exists i. split; [lia |]. split; [| exists k', r'; auto].
              intros j Hj. apply Hbefore. lia.
      * cbn [fst]. split; [discriminate |].
        intros (i & Hi & Hbefore & k' & r' & E1 & E2 & Hlt).
        destruct (Nat.eq_dec i a) as [-> | Hne]; [congruence |].
        destruct (Hbefore a ltac:(lia)) as (k'' & r'' & _ & E & _). congruence.
    + cbn [fst]. split; [discriminate |].
      intros (i & Hi & Hbefore & k' & r' & E1 & E2 & Hlt).
      destruct (Nat.eq_dec i a) as [-> | Hne]; [congruence |].
      destruct (Hbefore a ltac:(lia)) as (k'' & r'' & E & _). congruence.
Qed.

(** X4: [is_ida_version] answers False exactly when, among the compared
    components, there is one in which the kernel's number is smaller than
    the requested one while all components before it are at least the
    requested ones; the branch for an empty comparison is never taken,
    since [split] never returns an empty list. *)
Theorem is_ida_version_rejects (h : host) (requested : string) (s : state) :
  let rv := py_split "."%char requested in
  let kv := py_split "."%char (kernel_version h) in
  (1 <= Nat.min (length rv) (length kv))%nat
  /\ (value_of (is_ida_version h requested) s = Return false
      <-> exists i : nat,
            (i < Nat.min (length rv) (length kv))%nat
            /\ (forall j : nat, (j < i)%nat ->
                  exists k r : Z,
                    py_int (nth j kv EmptyString) = Return k
                    /\ py_int (nth j rv EmptyString) = Return r
                    /\ r <= k)
            /\ exists k r : Z,
                 py_int (nth i kv EmptyString) = Return k
                 /\ py_int (nth i rv EmptyString) = Return r
                 /\ k < r).
Proof.
  intros rv kv.
  pose proof (py_split_length "."%char requested) as Hrv.
  pose proof (py_split_length "."%char (kernel_version h)) as Hkv.
  fold rv in Hrv. fold kv in Hkv.
  split; [lia |].
  unfold value_of. rewrite is_ida_version_unfold. fold rv kv.
  destruct (Nat.eqb_spec (Nat.min (length rv) (length kv)) 0) as [E0 | _]; [lia |].
  cbn [fst]. rewrite is_ida_version_loop_false by lia.
  split.
  - intros (i & Hi & Hbefore & Hbad). exists i. split; [lia |].
    split; [| exact Hbad]. intros j Hj. apply Hbefore. lia.
  - intros (i & Hi & Hbefore & Hbad). exists i. split; [lia |].
    split; [| exact Hbad]. intros j Hj. apply Hbefore. lia.
Qed.

(** Kernel 7.2 against the minimum 7.3: the second component decides. *)
Lemma is_ida_version_rejects_witness :
  value_of (is_ida_version kernel_7_2_host "7.3") fresh_state = Return false.
Proof.
  apply (is_ida_version_rejects kernel_7_2_host "7.3" fresh_state).
  exists 1%nat. split; [simpl; lia |]. split.
  - intros j Hj. assert (j = 0%nat) as -> by lia.
    exists 7, 7. repeat split; reflexivity || lia.
  - exists 2, 3. repeat split; reflexivity || lia.
Defined.

(** X5: when the first component of the kernel's version string is not a
    decimal number, [is_ida_version] raises [ValueError] whatever version
    is requested; nothing catches it: [is_compatible], [create_mc_widget] and [genmc.init] raise
    it too, and [create_mc_widget] reports nothing to the user. *)
Theorem non_numeric_kernel_version (h : host) (s : state) :
  py_int (nth 0 (py_split "."%char (kernel_version h)) EmptyString)
  = Raise ValueError ->
  (forall requested : string,
      value_of (is_ida_version h requested) s = Raise ValueError)
  /\ value_of (is_compatible h) s = Raise ValueError
  /\ value_of (create_mc_widget h) s = Raise ValueError
  /\ events_of (create_mc_widget h) s = [kw_get_kernel_version]
  /\ value_of (genmc_init h) s = Raise ValueError.
Proof.
  intros Hbad.
  assert (Hver : forall requested : string,
             is_ida_version h requested s
             = (Raise ValueError, extend s [kw_get_kernel_version])).
  { intros requested. rewrite is_ida_version_unfold. cbv zeta.
    pose proof (py_split_length "."%char requested) as Hrv.
    pose proof (py_split_length "."%char (kernel_version h)) as Hkv.
    destruct (Nat.min _ _) as [| c] eqn:Ec; [lia |].
    cbn [Nat.eqb seq]. rewrite is_ida_version_loop_step by lia.
    now rewrite Hbad. }
  assert (Hcompat : is_compatible h s
                    = (Raise ValueError, extend s [kw_get_kernel_version])).
  { unfold is_compatible, bind. now rewrite Hver. }
  assert (Hwidget : create_mc_widget h s
                    = (Raise ValueError, extend s [kw_get_kernel_version])).
  { rewrite create_mc_widget_run. now rewrite Hcompat. }
  destruct (events_of_run _ _ _ _ Hwidget) as [Hv He].
  split; [intros requested; unfold value_of; now rewrite Hver |].
  split; [unfold value_of; now rewrite Hcompat |].
  split; [exact Hv |]. split; [exact He |].
  unfold value_of, genmc_init, bind. now rewrite Hcompat.
Qed.

(** A kernel that calls itself "beta". *)
Lemma non_numeric_kernel_version_witness :
  value_of (create_mc_widget beta_host) fresh_state = Raise ValueError
  /\ events_of (create_mc_widget beta_host) fresh_state = [kw_get_kernel_version].
Proof.
  destruct (non_numeric_kernel_version beta_host fresh_state)
    as (_ & _ & Hv & He & _); [reflexivity |].
  split; [exact Hv | exact He].
Defined.

Lemma py_split_app_sep (sep : ascii) (a b : string) :
  py_split sep (a +:+ String sep b) = py_split sep a ++ py_split sep b.
Proof.
  induction a as [| x a IH].
  - change (EmptyString +:+ String sep b) with (String sep b).
    cbn [py_split app]. now rewrite Ascii.eqb_refl.
  - change (String x a +:+ String sep b) with (String x (a +:+ String sep b)).
    cbn [py_split]. rewrite IH.
    destruct (Ascii.eqb x sep); [reflexivity |].
    pose proof (py_split_length sep a) as Hlen.
    destruct (py_split sep a) as [| w ws]; [simpl in Hlen; lia | reflexivity].
Qed.

(** The loop reads the requested components only at the indices it visits. *)
Lemma is_ida_version_loop_ext (kv rv rv' : list string) (indices : list nat)
    (s : state) :
  Forall (fun i => (i < length rv)%nat) indices ->
  is_ida_version_loop kv (rv ++ rv') indices s
  = is_ida_version_loop kv rv indices s.
Proof.
  induction indices as [| i rest IH]; intros Hin; [reflexivity |].
  apply Forall_cons in Hin. destruct Hin as [Hi Hrest].
  cbn [is_ida_version_loop]. unfold bind, lift.
  rewrite !py_getitem_nat. rewrite (nth_error_app1 rv rv' Hi).
  destruct (nth_error kv i) as [kvi |]; [| reflexivity].
  destruct (py_int kvi) as [k |]; [| reflexivity].
  destruct (nth_error rv i) as [rvi |]; [| reflexivity].
  destruct (py_int rvi) as [r |]; [| reflexivity].
  destruct (k <? r); [reflexivity | now apply IH].
Qed.

(** X6: only as many components are compared as the shorter version has:
    when the kernel's version has no more components than the requested
    one, a further component appended to the requested version does not
    change the answer of [is_ida_version]. *)
Theorem is_ida_version_extra_components (h : host) (requested extra : string)
    (s : state) :
  (length (py_split "."%char (kernel_version h))
   <= length (py_split "."%char requested))%nat ->
  is_ida_version h (requested +:+ "." +:+ extra) s = is_ida_version h requested s.
Proof.
  intros Hlen.
  rewrite !is_ida_version_unfold. cbv zeta.
  change ("." +:+ extra) with (String "."%char extra).
  rewrite py_split_app_sep, length_app.
  set (kv := py_split "."%char (kernel_version h)) in *.
  set (rv := py_split "."%char requested) in *.
  replace (Nat.min (length rv + length (py_split "."%char extra)) (length kv))
    with (Nat.min (length rv) (length kv)) by lia.
  destruct (Nat.eqb _ 0); [reflexivity |].
  rewrite is_ida_version_loop_ext; [reflexivity |].
  apply List.Forall_forall. intros i Hi. apply in_seq in Hi. lia.
Qed.

(** A kernel that reports "7" passes for 7.3 as it does for 7. *)
Lemma is_ida_version_extra_components_witness :
  value_of (is_ida_version kernel_7_host "7.3") fresh_state = Return true.
Proof.
  unfold value_of.
  change (is_ida_version kernel_7_host "7.3" fresh_state)
    with (is_ida_version kernel_7_host ("7" +:+ "." +:+ "3") fresh_state).
  rewrite (is_ida_version_extra_components kernel_7_host "7" "3" fresh_state).
  - reflexivity.
  - simpl. lia.
Defined.

(** X7: [is_compatible] initialises Hex-Rays only after the version check
    has passed, and then answers what the initialisation answers; when the
    version check fails it answers False having asked for the kernel
    version only. *)
Theorem is_compatible_short_circuit (h : host) (s : state) :
  (value_of (is_ida_version h "7.3") s = Return true ->
   value_of (is_compatible h) s = Return (hexrays_present h)
   /\ events_of (is_compatible h) s = [kw_get_kernel_version; hr_init_hexrays_plugin])
  /\ (value_of (is_ida_version h "7.3") s = Return false ->
      value_of (is_compatible h) s = Return false
      /\ events_of (is_compatible h) s = [kw_get_kernel_version]).
Proof.
  destruct (is_ida_version_run h "7.3" s) as [r Hver].
  unfold value_of at 1 3. rewrite Hver. cbn [fst].
  split; intros ->; apply events_of_run; unfold is_compatible, bind;
    rewrite Hver; unfold call, ret; norm_state; reflexivity.
Qed.

(** IDA 7.5 with the decompiler, and IDA 7.2. *)
Lemma is_compatible_short_circuit_witness :
  events_of (is_compatible script_host) fresh_state
  = [kw_get_kernel_version; hr_init_hexrays_plugin]
  /\ events_of (is_compatible kernel_7_2_host) fresh_state = [kw_get_kernel_version].
Proof.
  split.
  - apply (is_compatible_short_circuit script_host fresh_state). reflexivity.
  - apply (is_compatible_short_circuit kernel_7_2_host fresh_state). reflexivity.
Defined.

(** ** The viewer and the successful run *)

(** X8: [microcode_viewer_t.Create] asks the host for a viewer titled
    "Microcode: <title>" and returns the host's answer; when the host
    made the viewer, every line is added once, in order; when it did not,
    no line is added. *)
Theorem microcode_viewer_Create_adds_lines (h : host) (title : string)
    (lines : list string) (s : state) :
  value_of (microcode_viewer_Create h title lines) s = Return (viewer_create_ok h)
  /\ events_of (microcode_viewer_Create h title lines) s
     = viewer_Create ("Microcode: " +:+ title)
       :: (if viewer_create_ok h then map viewer_AddLine lines else []).
Proof.
  apply events_of_run. rewrite microcode_viewer_Create_run.
  destruct (viewer_create_ok h); reflexivity.
Qed.

(** Selects the case of [show_microcode_outcome] that the hypotheses in
    the context single out. *)
Ltac pick_run Hout Hrange :=
  inversion Hout as
      [ a b E1 E2 | sea1 eea1 R1 C1 | sea1 eea1 R1 C1 K1 | sea1 eea1 e R1 C1 K1 G1
      | sea1 eea1 t m f R1 C1 K1 G1 X1 | sea1 eea1 t m mb f R1 C1 K1 G1 X1 V1
      | sea1 eea1 t m mb f R1 C1 K1 G1 X1 V1 ];
  try (destruct (chosen_range_functional _ _ _ _ _ Hrange R1) as [<- <-]);
  try (destruct (chosen_range_exists _ _ _ Hrange) as [Hs | Hf];
       [rewrite E1 in Hs; discriminate | contradiction]);
  try congruence.

(** X9: when the range is chosen and starts with code, the dialog is
    accepted with the entry [(text, mmat)], the generator returns a
    microcode object and the viewer can be created, [show_microcode] sets
    the dialog's flags on the object before printing it, shows in the
    viewer exactly the lines the object prints under these flags, in
    order, under the title "Microcode: 0x<start>-0x<end> (<text>)", shows
    the viewer last and returns True with the success message. *)
Theorem show_microcode_shows (h : host) (s : state) (sea eea : N) (text : string)
    (mmat : mba_maturity_t) (mba : mba_t) (hf : hexrays_failure_t) :
  chosen_range h sea eea ->
  is_code h (get_flags h sea) = true ->
  form_ok h = 1 ->
  py_getitem maturity_levels (form_mat_lvl_value h) = Return (text, mmat) ->
  gen_microcode h sea eea (hr_DECOMP_WARNINGS h) (Some mmat) = (Some mba, hf) ->
  viewer_create_ok h = true ->
  value_of (show_microcode h) s
  = Return (true, "Successfully generated microcode for 0x" +:+ addr_fmt h sea
                  +:+ "..0x" +:+ addr_fmt h eea)
  /\ events_of (show_microcode h) s
     = code_calls h sea ++ dialog_calls
       ++ [hr_gen_microcode sea eea (hr_DECOMP_WARNINGS h) (Some mmat);
           mba_set_mba_flags (dialog_flags h);
           mba_print;
           viewer_Create ("Microcode: 0x" +:+ addr_fmt h sea +:+ "-0x"
                          +:+ addr_fmt h eea +:+ " (" +:+ text +:+ ")")]
       ++ map viewer_AddLine (map snd (mba_dump mba (dialog_flags h)))
       ++ [viewer_Show].
Proof.
  intros Hrange Hcode Hok Hget Hgen Hview.
  destruct (show_microcode_observed h s) as [Hout _].
  pick_run Hout Hrange.
  assert (t = text) by congruence. assert (m = mmat) by congruence. subst t m.
  assert (mb = mba) by congruence. subst mb.
  split; reflexivity.
Qed.

(** The session of [script_host]: the function under the cursor at
    MMAT_LOCOPT. *)
Lemma show_microcode_shows_witness :
  events_of (show_microcode script_host) fresh_state
  = code_calls script_host 4198400 ++ dialog_calls
    ++ [hr_gen_microcode 4198400 4198500 16 (Some MMAT_LOCOPT);
        mba_set_mba_flags 0; mba_print;
        viewer_Create "Microcode: 0x0000000000401000-0x0000000000401064 (MMAT_LOCOPT)";
        viewer_AddLine "0. 0 mov eax, ebx"; viewer_AddLine "0. 1 ret";
        viewer_Show].
Proof.
  refine (proj2 (show_microcode_shows script_host fresh_state 4198400 4198500
                   "MMAT_LOCOPT" MMAT_LOCOPT demo_mba
                   {| errea := 18446744073709551615; str := EmptyString |}
                   _ _ _ _ _ _)); try reflexivity.
  apply (range_function script_host 0%N 0%N
           {| start_ea := 4198400; end_ea := 4198500 |}); reflexivity.
Defined.

(** X10: in the same situation but with a host that cannot create the
    viewer, [show_microcode] returns (False, "Error creating viewer"); no
    line is added and the viewer is not shown. *)
Theorem show_microcode_no_viewer (h : host) (s : state) (sea eea : N) (text : string)
    (mmat : mba_maturity_t) (mba : mba_t) (hf : hexrays_failure_t) :
  chosen_range h sea eea ->
  is_code h (get_flags h sea) = true ->
  form_ok h = 1 ->
  py_getitem maturity_levels (form_mat_lvl_value h) = Return (text, mmat) ->
  gen_microcode h sea eea (hr_DECOMP_WARNINGS h) (Some mmat) = (Some mba, hf) ->
  viewer_create_ok h = false ->
  value_of (show_microcode h) s = Return (false, "Error creating viewer")
  /\ events_of (show_microcode h) s
     = code_calls h sea ++ dialog_calls
       ++ [hr_gen_microcode sea eea (hr_DECOMP_WARNINGS h) (Some mmat);
           mba_set_mba_flags (dialog_flags h);
           mba_print;
           viewer_Create ("Microcode: 0x" +:+ addr_fmt h sea +:+ "-0x"
                          +:+ addr_fmt h eea +:+ " (" +:+ text +:+ ")")].
Proof.
  intros Hrange Hcode Hok Hget Hgen Hview.
  destruct (show_microcode_observed h s) as [Hout _].
  pick_run Hout Hrange.
  assert (t = text) by congruence. subst t.
  assert (m = mmat) by congruence. subst m.
  split; reflexivity.
Qed.

(** The viewer cannot be created; [create_mc_widget] warns. *)
Lemma show_microcode_no_viewer_witness :
  value_of (show_microcode no_viewer_host) fresh_state
  = Return (false, "Error creating viewer").
Proof.
  refine (proj1 (show_microcode_no_viewer no_viewer_host fresh_state 4198400 4198500
                   "MMAT_LOCOPT" MMAT_LOCOPT demo_mba
                   {| errea := 18446744073709551615; str := EmptyString |}
                   _ _ _ _ _ _)); try reflexivity.
  apply (range_function no_viewer_host 0%N 0%N
           {| start_ea := 4198400; end_ea := 4198500 |}); reflexivity.
Defined.

(** ** What a run calls and what it leaves alone *)

Lemma filter_gen_AddLine (lines : list string) :
  List.filter is_gen_microcode (map viewer_AddLine lines) = [].
Proof. induction lines as [| line rest IH]; simpl; [reflexivity | exact IH]. Qed.

Lemma show_microcode_outcome_generator (h : host) r evs :
  show_microcode_outcome h r evs ->
  (length (List.filter is_gen_microcode evs) <= 1)%nat
  /\ forall (a b : N) (f : Z) (m : option mba_maturity_t),
       In (hr_gen_microcode a b f m) evs ->
       chosen_range h a b
       /\ f = hr_DECOMP_WARNINGS h
       /\ is_code h (get_flags h a) = true
       /\ form_ok h = 1
       /\ exists text mmat,
            m = Some mmat
            /\ py_getitem maturity_levels (form_mat_lvl_value h) = Return (text, mmat).
Proof.
  intros Hout. destruct Hout; (split;
    [ unfold code_calls, range_calls, dialog_calls, generator_call;
      rewrite ?List.filter_app, ?filter_gen_AddLine; cbn; lia
    | intros a b f' m' Hin; in_calls Hin; injection Hin as <- <- <- <-;
      repeat split; eauto ]).
Qed.

(** X11: a run of [show_microcode] calls the generator at most once, and
    only with the chosen range, whose start is code, with the flag
    [DECOMP_WARNINGS] and with the maturity level of the table entry
    selected in the accepted dialog, never without a level. *)
Theorem show_microcode_generator_calls (h : host) (s : state) :
  (length (List.filter is_gen_microcode (events_of (show_microcode h) s)) <= 1)%nat
  /\ forall (a b : N) (f : Z) (m : option mba_maturity_t),
       In (hr_gen_microcode a b f m) (events_of (show_microcode h) s) ->
       chosen_range h a b
       /\ f = hr_DECOMP_WARNINGS h
       /\ is_code h (get_flags h a) = true
       /\ form_ok h = 1
       /\ exists text mmat,
            m = Some mmat
            /\ py_getitem maturity_levels (form_mat_lvl_value h) = Return (text, mmat).
Proof.
  destruct (show_microcode_observed h s) as [Hout _].
  exact (show_microcode_outcome_generator h _ _ Hout).
Qed.

(** With a selection, the generator gets the selection, not the function
    under the cursor. *)
Lemma show_microcode_generator_calls_witness :
  chosen_range selecting_host 4198416 4198432
  /\ In (hr_gen_microcode 4198416 4198432 16 (Some MMAT_LOCOPT))
        (events_of (show_microcode selecting_host) fresh_state).
Proof.
  assert (Hin : In (hr_gen_microcode 4198416 4198432 16 (Some MMAT_LOCOPT))
                   (events_of (show_microcode selecting_host) fresh_state))
    by (vm_compute; tauto).
  split; [| exact Hin].
  exact (proj1 (proj2 (show_microcode_generator_calls selecting_host fresh_state)
                  _ _ _ _ Hin)).
Defined.

(** A computation whose final state is the initial one with calls added. *)
Lemma frame_intro {A : Type} (m : M A) (s : state) (evs : list event) :
  snd (m s) = extend s evs -> snd (m s) = extend s (events_of m s).
Proof.
  intros H. unfold events_of. rewrite H. now rewrite events_since_extend.
Qed.

Lemma create_mc_widget_observed (h : host) (s : state) :
  snd (create_mc_widget h s) = extend s (events_of (create_mc_widget h) s).
Proof.
  assert (Hframe : exists evs, snd (create_mc_widget h s) = extend s evs).
  { rewrite create_mc_widget_run.
    destruct (is_compatible_observed h s) as [Hs1 _].
    set (e1 := events_of (is_compatible h) s) in *.
    destruct (is_compatible h s) as [[[|] | e] s1]; cbn [snd] in Hs1; subst s1.
    - destruct (show_microcode_observed h (extend s e1)) as [_ Hs2].
      set (e2 := events_of (show_microcode h) (extend s e1)) in *.
      destruct (show_microcode h (extend s e1)) as [[[success message] | e] s2];
        cbn [snd] in *; subst s2; eexists; norm_state; reflexivity.
    - eexists. cbn [snd]. norm_state. reflexivity.
    - eexists. reflexivity. }
  destruct Hframe as [evs Hframe]. exact (frame_intro _ _ _ Hframe).
Qed.

(** X12: [show_microcode] and [create_mc_widget] never touch the file
    system, whatever the host answers and however the run ends. *)
Theorem viewer_leaves_file_system (h : host) (s : state) :
  fs_dirs (snd (show_microcode h s)) = fs_dirs s
  /\ fs_files (snd (show_microcode h s)) = fs_files s
  /\ fs_dirs (snd (create_mc_widget h s)) = fs_dirs s
  /\ fs_files (snd (create_mc_widget h s)) = fs_files s.
Proof.
  destruct (show_microcode_observed h s) as [_ Hshow].
  rewrite Hshow, create_mc_widget_observed. repeat split; reflexivity.
Qed.

(** ** The entry points *)

(** X13: loaded as a plugin, [SCRIPT_ENTRY] returns False without a single
    call; run as a script it asks for the user directory, prints the hint
    about [install_plugin()] if and only if the plugin is not installed,
    runs [create_mc_widget], and returns True whatever flag
    [create_mc_widget] returned; an exception of [create_mc_widget] is not
    caught. *)
Theorem SCRIPT_ENTRY_runs (h : host) (s : state) :
  (is_plugin h = true -> SCRIPT_ENTRY h s = (Return false, s))
  /\ (is_plugin h = false ->
      let prelude :=
        ida_diskio_get_user_idadir
        :: (if bool_decide (is_Some (fs_files s !! target_path h))
            then [] else [kw_msg commands_hint]) in
      value_of (SCRIPT_ENTRY h) s
      = match value_of (create_mc_widget h) (extend s prelude) with
        | Return _ => Return true
        | Raise e => Raise e
        end
      /\ events_of (SCRIPT_ENTRY h) s
         = prelude ++ events_of (create_mc_widget h) (extend s prelude)).
Proof.
  split; [intros Hplugin; unfold SCRIPT_ENTRY; rewrite Hplugin; reflexivity |].
  intros Hplugin prelude. unfold SCRIPT_ENTRY. rewrite Hplugin. cbn [negb].
  apply events_of_run.
  unfold is_installed, bind at 1 2 3. rewrite get_target_dir_run.
  unfold os_path_isfile. cbn [fs_files extend].
  assert (Hpre : (if negb (bool_decide (is_Some (fs_files s !! target_path h)))
                  then call (kw_msg commands_hint) tt else ret tt)
                   (extend s [ida_diskio_get_user_idadir])
                 = (Return tt, extend s prelude)).
  { subst prelude. destruct (bool_decide _); cbn [negb]; unfold call, ret;
      norm_state; reflexivity. }
  change (genmc_wanted_name +:+ ": Available commands:" +:+ LF
          +:+ "[+] " +:+ DQ +:+ "install_plugin()" +:+ DQ
          +:+ " - install script to ida_userdir/plugins" +:+ LF)
    with commands_hint.
  rewrite Hpre. unfold bind, ret.
  pose proof (create_mc_widget_observed h (extend s prelude)) as Hs2.
  unfold value_of.
  set (e2 := events_of (create_mc_widget h) (extend s prelude)) in *.
  destruct (create_mc_widget h (extend s prelude)) as [[b | e] s2];
    cbn [fst snd] in *; subst s2; norm_state; reflexivity.
Qed.

(** Run as a script before installation, and loaded as a plugin. *)
Lemma SCRIPT_ENTRY_runs_witness :
  value_of (SCRIPT_ENTRY failing_host) fresh_state = Return true
  /\ SCRIPT_ENTRY plugin_host fresh_state = (Return false, fresh_state).
Proof.
  split.
  - destruct (SCRIPT_ENTRY_runs failing_host fresh_state) as [_ Hscript].
    destruct Hscript as [Hv _]; [reflexivity |].
    rewrite Hv. vm_compute. reflexivity.
  - apply (SCRIPT_ENTRY_runs plugin_host fresh_state). reflexivity.
Defined.

(** X14: [genmc.init] makes the calls of the compatibility check and no
    other; it returns PLUGIN_OK exactly when the check answers True,
    PLUGIN_SKIP exactly when it answers False, and never PLUGIN_KEEP. *)
Theorem genmc_init_follows_is_compatible (h : host) (s : state) :
  events_of (genmc_init h) s = events_of (is_compatible h) s
  /\ (value_of (genmc_init h) s = Return PLUGIN_OK
      <-> value_of (is_compatible h) s = Return true)
  /\ (value_of (genmc_init h) s = Return PLUGIN_SKIP
      <-> value_of (is_compatible h) s = Return false)
  /\ value_of (genmc_init h) s <> Return PLUGIN_KEEP.
Proof.
  unfold value_of, events_of, genmc_init, bind, ret.
  destruct (is_compatible h s) as [[[|] | e] s1]; cbn [fst snd];
    (split; [reflexivity |]); repeat split; intros; congruence.
Qed.

(** IDA 7.5 with the decompiler is accepted. *)
Lemma genmc_init_follows_is_compatible_witness :
  value_of (genmc_init script_host) fresh_state = Return PLUGIN_OK.
Proof.
  apply (genmc_init_follows_is_compatible script_host fresh_state). reflexivity.
Defined.

(** ** The dialog, in full *)

Lemma py_getitem_raises {A : Type} (l : list A) (i : Z) (e : exn) :
  py_getitem l i = Raise e -> e = IndexError.
Proof.
  unfold py_getitem. destruct (_ || _); [congruence |].
  destruct (nth_error l _); congruence.
Qed.

(** X15: a dialog that is not accepted makes [ask_desired_maturity]
    return (None, None, flags), the check box being read all the same and
    the form freed.  Whenever the function returns, name and level are
    both None or both set, None exactly when the dialog was not accepted,
    and the flags are 0 or MBA_SHORT.  The only exception it can raise is
    the [IndexError] of a selected index outside the table, and then the
    form is not freed. *)
Theorem ask_desired_maturity_outcomes (h : host) (s : state) :
  (form_ok h <> 1 ->
   value_of (ask_desired_maturity h) s
   = Return (None, None, if form_flags_short_checked h then hr_MBA_SHORT h else 0)
   /\ events_of (ask_desired_maturity h) s
      = [Form_Compile MaturityForm; Form_Execute; Form_Free])
  /\ (forall text mmat flags,
        value_of (ask_desired_maturity h) s = Return (text, mmat, flags) ->
        (text = None <-> mmat = None)
        /\ (text = None <-> form_ok h <> 1)
        /\ (flags = 0 \/ flags = hr_MBA_SHORT h)
        /\ events_of (ask_desired_maturity h) s
           = [Form_Compile MaturityForm; Form_Execute; Form_Free])
  /\ (forall e : exn,
        value_of (ask_desired_maturity h) s = Raise e ->
        e = IndexError
        /\ form_ok h = 1
        /\ ~ (-8 <= form_mat_lvl_value h < 8)
        /\ events_of (ask_desired_maturity h) s
           = [Form_Compile MaturityForm; Form_Execute]).
Proof.
  unfold value_of, events_of. rewrite ask_desired_maturity_run.
  unfold dialog_flags, dialog_calls.
  destruct (Z.eqb_spec (form_ok h) 1) as [Hok | Hok].
  - destruct (py_getitem maturity_levels (form_mat_lvl_value h))
      as [[text0 mmat0] | e0] eqn:Hget; cbn [fst snd]; rewrite events_since_extend.
    + split; [intros Hno; contradiction |]. split; [| intros e; discriminate].
      intros text mmat flags [= <- <- <-].
      split; [split; discriminate |]. split; [split; [discriminate | contradiction] |].
      split; [destruct (form_flags_short_checked h); auto | reflexivity].
    + split; [intros Hno; contradiction |]. split; [intros ? ? ?; discriminate |].
      intros e [= <-]. split; [exact (py_getitem_raises _ _ _ Hget) |].
      split; [exact Hok |]. split; [| reflexivity].
      intros Hvalid.
      destruct (py_getitem_maturity_levels_valid _ Hvalid) as [entry Hentry].
      congruence.
  - cbn [fst snd]. rewrite events_since_extend.
    split; [intros _; split; reflexivity |]. split; [| intros e; discriminate].
    intros text mmat flags [= <- <- <-].
    split; [split; reflexivity |]. split; [split; auto |].
    split; [destruct (form_flags_short_checked h); auto | reflexivity].
Qed.

(** The dialog closed with Cancel. *)
Lemma ask_desired_maturity_outcomes_witness :
  value_of (ask_desired_maturity cancel_host) fresh_state = Return (None, None, 0).
Proof.
  destruct (ask_desired_maturity_outcomes cancel_host fresh_state) as [Hcancel _].
  destruct Hcancel as [Hv _]; [simpl; lia | exact Hv].
Defined.

(** ** The installer's paths *)

Lemma has_slash_app (a b : string) :
  has_slash (a +:+ b) = has_slash a || has_slash b.
Proof.
  induction a as [| x a IH]; [reflexivity |].
  change (String x a +:+ b) with (String x (a +:+ b)).
  cbn [has_slash]. rewrite IH. now rewrite orb_assoc.
Qed.

Lemma path_head_no_slash (b : string) : has_slash b = false -> path_head b = EmptyString.
Proof. destruct b as [| x b]; [reflexivity |]. cbn [path_head]. now intros ->. Qed.

Lemma basename_no_slash (b : string) : has_slash b = false -> os_path_basename b = b.
Proof. destruct b as [| x b]; [reflexivity |]. cbn [os_path_basename]. now intros ->. Qed.

Lemma path_head_app (a b : string) :
  has_slash b = false ->
  path_head (a +:+ String slash b) = a +:+ String slash EmptyString.
Proof.
  intros Hb. induction a as [| x a IH].
  - change (EmptyString +:+ String slash b) with (String slash b).
    cbn [path_head has_slash]. rewrite Ascii.eqb_refl. cbn [orb].
    now rewrite path_head_no_slash.
  - change (String x a +:+ String slash b) with (String x (a +:+ String slash b)).
    cbn [path_head]. change (has_slash (String x (a +:+ String slash b)))
      with (Ascii.eqb x slash || has_slash (a +:+ String slash b)).
    rewrite has_slash_app. cbn [has_slash]. rewrite Ascii.eqb_refl.
    rewrite IH. cbn [orb]. rewrite !orb_true_r. reflexivity.
Qed.

Lemma basename_app (a b : string) :
  has_slash b = false -> os_path_basename (a +:+ String slash b) = b.
Proof.
  intros Hb. induction a as [| x a IH].
  - change (EmptyString +:+ String slash b) with (String slash b).
    cbn [os_path_basename has_slash]. rewrite Ascii.eqb_refl. cbn [orb].
    now apply basename_no_slash.
  - change (String x a +:+ String slash b) with (String x (a +:+ String slash b)).
    cbn [os_path_basename]. change (has_slash (String x (a +:+ String slash b)))
      with (Ascii.eqb x slash || has_slash (a +:+ String slash b)).
    rewrite has_slash_app. cbn [has_slash]. rewrite Ascii.eqb_refl.
    cbn [orb]. rewrite !orb_true_r. exact IH.
Qed.

(** A non-empty path that does not end in a slash, followed by one slash. *)
Lemma strip_trailing_slash (a : string) :
  a <> EmptyString -> ends_with_slash a = false ->
  rstrip_slashes (a +:+ String slash EmptyString) = a
  /\ all_slashes (a +:+ String slash EmptyString) = false.
Proof.
  induction a as [| x a IH]; [congruence |]. intros _ Hend.
  change (String x a +:+ String slash EmptyString)
    with (String x (a +:+ String slash EmptyString)).
  cbn [rstrip_slashes all_slashes].
  destruct a as [| y a].
  - cbn [ends_with_slash] in Hend.
    change (EmptyString +:+ String slash EmptyString) with (String slash EmptyString).
    cbn [rstrip_slashes all_slashes]. rewrite Ascii.eqb_refl, Hend. split; reflexivity.
  - destruct IH as [IH1 IH2]; [discriminate | exact Hend |].
    rewrite IH1, IH2. split; [reflexivity | apply andb_false_r].
Qed.

Lemma ends_with_slash_app (a b : string) :
  b <> EmptyString -> ends_with_slash (a +:+ b) = ends_with_slash b.
Proof.
  intros Hb. induction a as [| x a IH]; [reflexivity |].
  change (String x a +:+ b) with (String x (a +:+ b)).
  cbn [ends_with_slash]. destruct (a +:+ b) eqn:E; [| exact IH].
  destruct a; [| discriminate]. now destruct b.
Qed.

(** [dirname] and [basename] undo [join] for a directory without trailing
    slash and a plain file name. *)
Lemma dirname_join (a b : string) :
  a <> EmptyString -> ends_with_slash a = false ->
  b <> EmptyString -> has_slash b = false ->
  os_path_join a b = a +:+ String slash b
  /\ os_path_dirname (os_path_join a b) = a
  /\ os_path_basename (os_path_join a b) = b.
Proof.
  intros Ha Hend Hb Hslash.
  assert (Hjoin : os_path_join a b = a +:+ String slash b).
  { unfold os_path_join. destruct b as [| c b]; [congruence |].
    cbn [has_slash] in Hslash. apply orb_false_elim in Hslash as [Hc _].
    rewrite Hc. destruct a; [congruence |]. now rewrite Hend. }
  rewrite Hjoin. split; [reflexivity |]. split.
  - unfold os_path_dirname. rewrite path_head_app by assumption.
    destruct (strip_trailing_slash a Ha Hend) as [-> ->]. reflexivity.
  - now apply basename_app.
Qed.

(** X16: when the user directory of IDA is a non-empty path that does not
    end in a slash, the target of the installation is
    <user directory>/plugins/genmc.py and the directory [install_plugin]
    checks and means to create is <user directory>/plugins. *)
Theorem install_paths (h : host) :
  user_idadir h <> EmptyString ->
  ends_with_slash (user_idadir h) = false ->
  target_path h = user_idadir h +:+ "/plugins/genmc.py"
  /\ plugin_dir h = user_idadir h +:+ "/plugins"
  /\ os_path_basename (target_path h) = "genmc.py".
Proof.
  intros Hne Hend.
  destruct (dirname_join (user_idadir h) "plugins" Hne Hend) as (Hj & _ & _);
    [discriminate | reflexivity |].
  assert (Hne' : user_idadir h +:+ String slash "plugins" <> EmptyString)
    by (destruct (user_idadir h); [congruence | discriminate]).
  assert (Hend' : ends_with_slash (user_idadir h +:+ String slash "plugins") = false)
    by (rewrite ends_with_slash_app; [reflexivity | discriminate]).
  destruct (dirname_join (user_idadir h +:+ String slash "plugins") "genmc.py"
              Hne' Hend') as (Hj2 & Hd2 & Hb2); [discriminate | reflexivity |].
  unfold plugin_dir, target_path. change (genmc_wanted_name +:+ ".py") with "genmc.py".
  rewrite Hj, Hd2, Hb2, Hj2.
  split; [| split; reflexivity].
  rewrite append_assoc. reflexivity.
Qed.

(** The user directory [/home/u/.idapro]. *)
Lemma install_paths_witness :
  target_path script_host = "/home/u/.idapro/plugins/genmc.py"
  /\ plugin_dir script_host = "/home/u/.idapro/plugins".
Proof.
  destruct (install_paths script_host) as (Ht & Hd & _);
    [discriminate | reflexivity |].
  split; [exact Ht | exact Hd].
Defined.

(** ** The printer, from any state *)

(** X17: from any printer, feeding the callbacks of one dump and then
    those of another leaves the lines of both, in order, after the lines
    already there; the indent argument of [_print] is dropped, so two
    dumps with the same lines and different indents collect the same. *)
Theorem printer_t_accumulates (self : printer_t.t) (first second : list (Z * string)) :
  printer_t.get_mc (snd (printer_t.feed (snd (printer_t.feed self first)) second))
  = printer_t.get_mc self ++ map snd first ++ map snd second
  /\ (map snd first = map snd second ->
      printer_t.get_mc (snd (printer_t.feed self first))
      = printer_t.get_mc (snd (printer_t.feed self second))).
Proof.
  split.
  - rewrite !feed_get_mc. now rewrite app_assoc.
  - intros Heq. rewrite !feed_get_mc. now rewrite Heq.
Qed.

(** The same line printed at two indents. *)
Lemma printer_t_accumulates_witness :
  printer_t.get_mc (snd (printer_t.feed printer_t.init [(0, "ret")]))
  = printer_t.get_mc (snd (printer_t.feed printer_t.init [(4, "ret")])).
Proof.
  apply (printer_t_accumulates printer_t.init [(0, "ret")] [(4, "ret")]).
  reflexivity.
Defined.

(** ** One report per run *)

(** X18: a run of [create_mc_widget] that returns has written exactly one
    message to the output channels, with its last call; if it returns
    True that message went to [kw.msg].  A run that raises has written
    none. *)
Theorem create_mc_widget_one_report (h : host) (s : state) :
  match value_of (create_mc_widget h) s with
  | Return success =>
      exists (calls : list event) (report : event),
        events_of (create_mc_widget h) s = calls ++ [report]
        /\ Forall (fun e => is_output_event e = false) calls
        /\ is_output_event report = true
        /\ (success = true -> exists text, report = kw_msg text)
  | Raise _ =>
      Forall (fun e => is_output_event e = false) (events_of (create_mc_widget h) s)
  end.
Proof.
  destruct (is_compatible_observed h s) as [Hs1 Hsilent1].
  assert (Hquiet1 : Forall (fun e => is_output_event e = false)
                           (events_of (is_compatible h) s)).
  { eapply List.Forall_impl; [| exact Hsilent1]. intros e [_ He]. exact He. }
  clear Hsilent1.
  unfold value_of at 1. unfold events_of at 1 2.
  rewrite create_mc_widget_run.
  set (e1 := events_of (is_compatible h) s) in *.
  destruct (is_compatible h s) as [[[|] | e] s1]; cbn [snd] in Hs1; subst s1.
  - destruct (show_microcode_observed h (extend s e1)) as [Hout Hs2].
    apply show_microcode_outcome_silent in Hout.
    unfold value_of in Hout.
    set (e2 := events_of (show_microcode h) (extend s e1)) in *.
    destruct (show_microcode h (extend s e1)) as [[[success message] | e] s2];
      cbn [fst snd] in *; subst s2.
    + norm_state. rewrite events_since_extend.
      exists (e1 ++ e2), ((if success then kw_msg else kw_warning)
                            (genmc_wanted_name +:+ ": " +:+ message +:+ LF)).
      split; [now rewrite <- app_assoc |].
      split; [apply Forall_app; split; assumption |].
      split; [now destruct success |].
      intros ->. eexists. reflexivity.
    + norm_state. rewrite events_since_extend.
      apply Forall_app; split; assumption.
  - cbn [fst snd]. norm_state. rewrite events_since_extend.
    eexists e1, _. split; [reflexivity |]. split; [assumption |].
    split; [reflexivity | discriminate].
  - cbn [fst snd]. rewrite events_since_extend. assumption.
Qed.
